(** * Hierarchy store of the file-link dashboard

    A shallow embedding of the [Dashboard] component
    (components/Dashboard.tsx): its React state, the handlers that talk to
    the remote data service and patch the in-memory tree of
    groups → subgroups → files, and the properties of that tree.

    Conventions of the embedding.
    - A JavaScript string is the list of its UTF-16 code units.
    - The React state of one render is a record; a handler reads the state
      of the render it was created in (its closure) and queues updates, so
      it is a function from that snapshot to the next state.
    - The remote service is the environment: what it answered is an
      argument of the handler, what the handler asked is the list of
      requests the handler returns, in the order they were sent. *)

From Stdlib Require Import Strings.String Strings.Ascii.
From stdpp Require Import base tactics option list numbers relations sorting.

Local Open Scope N_scope.

(** ** JavaScript strings *)

Definition jsstring : Type := list N.

(** The code units of an ASCII literal of the source. *)
Definition js (s : string) : jsstring :=
  (λ a, N_of_ascii a) <$> list_ascii_of_string s.

(** ECMAScript WhiteSpace and LineTerminator code points, the ones
    [String.prototype.trim] strips. *)
Definition isWhiteSpace (c : N) : bool :=
  bool_decide (c ∈ [9; 10; 11; 12; 13; 32; 160; 5760; 8232; 8233; 8239; 8287;
                    12288; 65279])
  || ((8192 <=? c) && (c <=? 8202)).

Fixpoint trimStart (s : jsstring) : jsstring :=
  match s with
  | [] => []
  | c :: rest => if isWhiteSpace c then trimStart rest else s
  end.

Definition trimEnd (s : jsstring) : jsstring :=
  reverse (trimStart (reverse s)).

Definition trim (s : jsstring) : jsstring := trimEnd (trimStart s).

(** [!!s] for a string: only the empty string is falsy. *)
Definition truthy (s : jsstring) : bool :=
  match s with [] => false | _ :: _ => true end.

(** [!!v] for [string | null]: [null] and the empty string are falsy. *)
Definition truthy_opt (v : option jsstring) : bool :=
  match v with Some s => truthy s | None => false end.

(** ** Rows of the remote tables (types/database.ts) *)

Module Group.
Record t : Type := mk
  { id : jsstring; name : jsstring; user_id : jsstring;
    created_at : jsstring }.
End Group.

Module Subgroup.
Record t : Type := mk
  { id : jsstring; name : jsstring; group_id : jsstring;
    user_id : jsstring; created_at : jsstring }.
End Subgroup.

Module File.
Record t : Type := mk
  { id : jsstring; name : jsstring; link : jsstring;
    subgroup_id : jsstring; user_id : jsstring; created_at : jsstring }.
End File.

(** ** Nodes of the local tree

    [interface SubgroupWithDetails extends Subgroup] and
    [interface GroupWithDetails extends Group]: the fields of the row, kept
    together as [row], plus the children and the expand flag. *)

Module SubgroupWithDetails.
Record t : Type := mk
  { row : Subgroup.t; files : list File.t; isExpanded : bool }.
Definition id (s : t) : jsstring := Subgroup.id (row s).
End SubgroupWithDetails.

Module GroupWithDetails.
Record t : Type := mk
  { row : Group.t; subgroups : list SubgroupWithDetails.t;
    isExpanded : bool }.
Definition id (g : t) : jsstring := Group.id (row g).
End GroupWithDetails.

(** ** The remote data service *)

Inductive Table : Type := groups_table | subgroups_table | files_table.

(** One request sent to the service. [Select t] is
    [from(t).select('*').order('created_at', {ascending: true})]; the
    inserts carry the object that is inserted; [Delete t i] is
    [from(t).delete().eq('id', i)]. *)
Inductive Request : Type :=
| Select (table : Table)
| InsertGroup (name : jsstring) (user_id : option jsstring)
| InsertSubgroup (name group_id : jsstring) (user_id : option jsstring)
| InsertFile (name link : jsstring) (subgroup_id user_id : option jsstring)
| Delete (table : Table) (id : jsstring)
| CheckConnection.

Record PostgrestError : Type := { message : jsstring }.

(** Answer to a [Select]: [{ data, error }]. A request whose promise is
    rejected reaches the same [catch] as one that answers with an error; it
    is an answer with [error] set. *)
Record PostgrestResponse (A : Type) : Type := mkResponse
  { data : option (list A); error_of : option PostgrestError }.
Arguments mkResponse {A} _ _.
Arguments data {A} _.
Arguments error_of {A} _.

(** Answer to [insert(..).select().single()]: the created row, or an
    error. *)
Inductive PostgrestSingleResponse (A : Type) : Type :=
| Success (data : A)
| Failure (error : PostgrestError).
Arguments Success {A} _.
Arguments Failure {A} _.

(** ** React state of the component (the [useState] cells) *)

Record Dashboard : Type := mkDashboard
  { groups : list GroupWithDetails.t;
    newGroupName : jsstring;
    selectedGroup : option jsstring;
    selectedSubgroup : option jsstring;
    newFileName : jsstring;
    newFileLink : jsstring;
    addingSubgroupTo : option jsstring;
    newSubgroupName : jsstring;
    isLoading : bool;
    error : option jsstring;
    userId : option jsstring;
    copiedLink : option jsstring;
    isConnected : bool }.

(** The initial values of the [useState] calls. *)
Definition initial : Dashboard :=
  {| groups := []; newGroupName := []; selectedGroup := None;
     selectedSubgroup := None; newFileName := []; newFileLink := [];
     addingSubgroupTo := None; newSubgroupName := []; isLoading := true;
     error := None; userId := None; copiedLink := None;
     isConnected := true |}.

(** ** Handlers: state and the requests sent *)

Definition Handler (A : Type) : Type :=
  Dashboard → A * Dashboard * list Request.

#[export] Instance Handler_ret : MRet Handler := λ A x st, (x, st, []).

#[export] Instance Handler_bind : MBind Handler := λ A B k m st,
  let '(x, st1, sent1) := m st in
  let '(y, st2, sent2) := k x st1 in
  (y, st2, sent1 ++ sent2).

(** Send one request. *)
Definition remote (r : Request) : Handler unit := λ st, (tt, st, [r]).

(** Queue a state update. *)
Definition update (f : Dashboard → Dashboard) : Handler unit :=
  λ st, (tt, f st, []).

(** State after the handler, and what it sent. *)
Definition state_after {A} (h : Handler A) (st : Dashboard) : Dashboard :=
  (h st).1.2.
Definition sent {A} (h : Handler A) (st : Dashboard) : list Request :=
  (h st).2.

Definition with_Groups (v : list GroupWithDetails.t) (st : Dashboard)
    : Dashboard :=
  {| groups := v; newGroupName := newGroupName st;
     selectedGroup := selectedGroup st;
     selectedSubgroup := selectedSubgroup st;
     newFileName := newFileName st; newFileLink := newFileLink st;
     addingSubgroupTo := addingSubgroupTo st;
     newSubgroupName := newSubgroupName st; isLoading := isLoading st;
     error := error st; userId := userId st; copiedLink := copiedLink st;
     isConnected := isConnected st |}.
Definition setGroups (v : list GroupWithDetails.t) : Handler unit :=
  update (with_Groups v).

Definition with_NewGroupName (v : jsstring) (st : Dashboard) : Dashboard :=
  {| groups := groups st; newGroupName := v;
     selectedGroup := selectedGroup st;
     selectedSubgroup := selectedSubgroup st;
     newFileName := newFileName st; newFileLink := newFileLink st;
     addingSubgroupTo := addingSubgroupTo st;
     newSubgroupName := newSubgroupName st; isLoading := isLoading st;
     error := error st; userId := userId st; copiedLink := copiedLink st;
     isConnected := isConnected st |}.
Definition setNewGroupName (v : jsstring) : Handler unit :=
  update (with_NewGroupName v).

Definition with_SelectedGroup (v : option jsstring) (st : Dashboard)
    : Dashboard :=
  {| groups := groups st; newGroupName := newGroupName st;
     selectedGroup := v;
     selectedSubgroup := selectedSubgroup st;
     newFileName := newFileName st; newFileLink := newFileLink st;
     addingSubgroupTo := addingSubgroupTo st;
     newSubgroupName := newSubgroupName st; isLoading := isLoading st;
     error := error st; userId := userId st; copiedLink := copiedLink st;
     isConnected := isConnected st |}.
Definition setSelectedGroup (v : option jsstring) : Handler unit :=
  update (with_SelectedGroup v).

Definition with_SelectedSubgroup (v : option jsstring) (st : Dashboard)
    : Dashboard :=
  {| groups := groups st; newGroupName := newGroupName st;
     selectedGroup := selectedGroup st;
     selectedSubgroup := v;
     newFileName := newFileName st; newFileLink := newFileLink st;
     addingSubgroupTo := addingSubgroupTo st;
     newSubgroupName := newSubgroupName st; isLoading := isLoading st;
     error := error st; userId := userId st; copiedLink := copiedLink st;
     isConnected := isConnected st |}.
Definition setSelectedSubgroup (v : option jsstring) : Handler unit :=
  update (with_SelectedSubgroup v).

Definition with_NewFileName (v : jsstring) (st : Dashboard) : Dashboard :=
  {| groups := groups st; newGroupName := newGroupName st;
     selectedGroup := selectedGroup st;
     selectedSubgroup := selectedSubgroup st;
     newFileName := v; newFileLink := newFileLink st;
     addingSubgroupTo := addingSubgroupTo st;
     newSubgroupName := newSubgroupName st; isLoading := isLoading st;
     error := error st; userId := userId st; copiedLink := copiedLink st;
     isConnected := isConnected st |}.
Definition setNewFileName (v : jsstring) : Handler unit :=
  update (with_NewFileName v).

Definition with_NewFileLink (v : jsstring) (st : Dashboard) : Dashboard :=
  {| groups := groups st; newGroupName := newGroupName st;
     selectedGroup := selectedGroup st;
     selectedSubgroup := selectedSubgroup st;
     newFileName := newFileName st; newFileLink := v;
     addingSubgroupTo := addingSubgroupTo st;
     newSubgroupName := newSubgroupName st; isLoading := isLoading st;
     error := error st; userId := userId st; copiedLink := copiedLink st;
     isConnected := isConnected st |}.
Definition setNewFileLink (v : jsstring) : Handler unit :=
  update (with_NewFileLink v).

Definition with_AddingSubgroupTo (v : option jsstring) (st : Dashboard)
    : Dashboard :=
  {| groups := groups st; newGroupName := newGroupName st;
     selectedGroup := selectedGroup st;
     selectedSubgroup := selectedSubgroup st;
     newFileName := newFileName st; newFileLink := newFileLink st;
     addingSubgroupTo := v;
     newSubgroupName := newSubgroupName st; isLoading := isLoading st;
     error := error st; userId := userId st; copiedLink := copiedLink st;
     isConnected := isConnected st |}.
Definition setAddingSubgroupTo (v : option jsstring) : Handler unit :=
  update (with_AddingSubgroupTo v).

Definition with_NewSubgroupName (v : jsstring) (st : Dashboard) : Dashboard :=
  {| groups := groups st; newGroupName := newGroupName st;
     selectedGroup := selectedGroup st;
     selectedSubgroup := selectedSubgroup st;
     newFileName := newFileName st; newFileLink := newFileLink st;
     addingSubgroupTo := addingSubgroupTo st;
     newSubgroupName := v; isLoading := isLoading st;
     error := error st; userId := userId st; copiedLink := copiedLink st;
     isConnected := isConnected st |}.
Definition setNewSubgroupName (v : jsstring) : Handler unit :=
  update (with_NewSubgroupName v).

Definition with_IsLoading (v : bool) (st : Dashboard) : Dashboard :=
  {| groups := groups st; newGroupName := newGroupName st;
     selectedGroup := selectedGroup st;
     selectedSubgroup := selectedSubgroup st;
     newFileName := newFileName st; newFileLink := newFileLink st;
     addingSubgroupTo := addingSubgroupTo st;
     newSubgroupName := newSubgroupName st; isLoading := v;
     error := error st; userId := userId st; copiedLink := copiedLink st;
     isConnected := isConnected st |}.
Definition setIsLoading (v : bool) : Handler unit :=
  update (with_IsLoading v).

Definition with_Error (v : option jsstring) (st : Dashboard) : Dashboard :=
  {| groups := groups st; newGroupName := newGroupName st;
     selectedGroup := selectedGroup st;
     selectedSubgroup := selectedSubgroup st;
     newFileName := newFileName st; newFileLink := newFileLink st;
     addingSubgroupTo := addingSubgroupTo st;
     newSubgroupName := newSubgroupName st; isLoading := isLoading st;
     error := v; userId := userId st; copiedLink := copiedLink st;
     isConnected := isConnected st |}.
Definition setError (v : option jsstring) : Handler unit :=
  update (with_Error v).

Definition with_IsConnected (v : bool) (st : Dashboard) : Dashboard :=
  {| groups := groups st; newGroupName := newGroupName st;
     selectedGroup := selectedGroup st;
     selectedSubgroup := selectedSubgroup st;
     newFileName := newFileName st; newFileLink := newFileLink st;
     addingSubgroupTo := addingSubgroupTo st;
     newSubgroupName := newSubgroupName st; isLoading := isLoading st;
     error := error st; userId := userId st; copiedLink := copiedLink st;
     isConnected := v |}.
Definition setIsConnected (v : bool) : Handler unit :=
  update (with_IsConnected v).

Definition with_UserId (v : option jsstring) (st : Dashboard) : Dashboard :=
  {| groups := groups st; newGroupName := newGroupName st;
     selectedGroup := selectedGroup st;
     selectedSubgroup := selectedSubgroup st;
     newFileName := newFileName st; newFileLink := newFileLink st;
     addingSubgroupTo := addingSubgroupTo st;
     newSubgroupName := newSubgroupName st; isLoading := isLoading st;
     error := error st; userId := v; copiedLink := copiedLink st;
     isConnected := isConnected st |}.
Definition setUserId (v : option jsstring) : Handler unit :=
  update (with_UserId v).

(** The state of the render the handler closes over. *)
Definition snapshot : Handler Dashboard := λ st, (st, st, []).

(** ** fetchGroups *)

(** [data || []] *)
Definition orEmpty {A} (data : option (list A)) : list A := default [] data.

(** The tree built from the three fetched tables (the constant
    [groupsWithDetails] of [fetchGroups]). *)
Definition groupsWithDetails (groups : option (list Group.t))
    (subgroups : option (list Subgroup.t)) (files : option (list File.t))
    : list GroupWithDetails.t :=
  (λ group,
     {| GroupWithDetails.row := group;
        GroupWithDetails.isExpanded := true;
        GroupWithDetails.subgroups :=
          (λ subgroup,
             {| SubgroupWithDetails.row := subgroup;
                SubgroupWithDetails.isExpanded := true;
                SubgroupWithDetails.files :=
                  filter (λ file, File.subgroup_id file = Subgroup.id subgroup)
                         (orEmpty files) |})
          <$> filter (λ subgroup, Subgroup.group_id subgroup = Group.id group)
                     (orEmpty subgroups) |})
  <$> orEmpty groups.

(** The [catch] blocks: a sticky message, then the connectivity probe. *)
Definition catch (msg : string) (checkConnection : bool) : Handler unit :=
  setError (Some (js msg)) ;;
  remote CheckConnection ;;
  setIsConnected checkConnection.

(** [fetchGroups], given the answers of the three selects and of the probe.
    The early [return] is outside the [try], so [finally] does not run
    then. *)
Definition fetchGroups (groupsR : PostgrestResponse Group.t)
    (subgroupsR : PostgrestResponse Subgroup.t)
    (filesR : PostgrestResponse File.t) (checkConnection : bool)
    : Handler unit :=
  render ← snapshot;
  if negb (isConnected render) then mret tt else
  (remote (Select groups_table) ;;
   match error_of groupsR with
   | Some _ => catch "Erro ao carregar os dados" checkConnection
   | None =>
     remote (Select subgroups_table) ;;
     match error_of subgroupsR with
     | Some _ => catch "Erro ao carregar os dados" checkConnection
     | None =>
       remote (Select files_table) ;;
       match error_of filesR with
       | Some _ => catch "Erro ao carregar os dados" checkConnection
       | None =>
         setGroups (groupsWithDetails (data groupsR) (data subgroupsR)
                                      (data filesR)) ;;
         setError None
       end
     end
   end) ;;
  setIsLoading false.

(** ** Creation *)

(** [{ ...data, subgroups: [], isExpanded: true }] *)
Definition newGroupNode (data : Group.t) : GroupWithDetails.t :=
  {| GroupWithDetails.row := data;
     GroupWithDetails.subgroups := [];
     GroupWithDetails.isExpanded := true |}.

(** [{ ...data, files: [], isExpanded: true }] *)
Definition newSubgroupNode (data : Subgroup.t) : SubgroupWithDetails.t :=
  {| SubgroupWithDetails.row := data;
     SubgroupWithDetails.files := [];
     SubgroupWithDetails.isExpanded := true |}.

(** The tree patches of the handlers, each the argument of the handler's
    [setGroups] call with the closure's [groups] made a parameter. *)

(** [[...groups, { ...data, subgroups: [], isExpanded: true }]] *)
Definition appendGroup (data : Group.t) (groups : list GroupWithDetails.t)
    : list GroupWithDetails.t :=
  groups ++ [newGroupNode data].

(** [groups.map(group => group.id === groupId
      ? { ...group, subgroups: [...group.subgroups, {...}] } : group)] *)
Definition appendSubgroup (groupId : jsstring) (data : Subgroup.t)
    (groups : list GroupWithDetails.t) : list GroupWithDetails.t :=
  (λ group,
     if bool_decide (GroupWithDetails.id group = groupId) then
       {| GroupWithDetails.row := GroupWithDetails.row group;
          GroupWithDetails.isExpanded := GroupWithDetails.isExpanded group;
          GroupWithDetails.subgroups :=
            GroupWithDetails.subgroups group ++ [newSubgroupNode data] |}
     else group)
  <$> groups.

(** [groups.map(group => ({ ...group, subgroups:
      group.subgroups.map(subgroup => subgroup.id === selectedSubgroup
        ? { ...subgroup, files: [...subgroup.files, data] } : subgroup) }))] *)
Definition appendFile (selectedSubgroup : option jsstring) (data : File.t)
    (groups : list GroupWithDetails.t) : list GroupWithDetails.t :=
  (λ group,
     {| GroupWithDetails.row := GroupWithDetails.row group;
        GroupWithDetails.isExpanded := GroupWithDetails.isExpanded group;
        GroupWithDetails.subgroups :=
          (λ subgroup,
             if bool_decide (Some (SubgroupWithDetails.id subgroup)
                             = selectedSubgroup) then
               {| SubgroupWithDetails.row := SubgroupWithDetails.row subgroup;
                  SubgroupWithDetails.isExpanded :=
                    SubgroupWithDetails.isExpanded subgroup;
                  SubgroupWithDetails.files :=
                    SubgroupWithDetails.files subgroup ++ [data] |}
             else subgroup)
          <$> GroupWithDetails.subgroups group |})
  <$> groups.

Definition handleCreateGroup (response : PostgrestSingleResponse Group.t)
    (checkConnection : bool) : Handler unit :=
  render ← snapshot;
  if negb (truthy (trim (newGroupName render)))
     || negb (truthy_opt (userId render))
     || negb (isConnected render)
  then mret tt else
  remote (InsertGroup (newGroupName render) (userId render)) ;;
  match response with
  | Success data =>
    setGroups (appendGroup data (groups render)) ;;
    setNewGroupName [] ;;
    setError None
  | Failure _ => catch "Erro ao criar grupo" checkConnection
  end.

Definition handleCreateSubgroup (groupId : jsstring)
    (response : PostgrestSingleResponse Subgroup.t) (checkConnection : bool)
    : Handler unit :=
  render ← snapshot;
  if negb (truthy (trim (newSubgroupName render)))
     || negb (truthy_opt (userId render))
     || negb (isConnected render)
  then mret tt else
  remote (InsertSubgroup (newSubgroupName render) groupId (userId render)) ;;
  match response with
  | Success data =>
    setGroups (appendSubgroup groupId data (groups render)) ;;
    setNewSubgroupName [] ;;
    setAddingSubgroupTo None ;;
    setError None
  | Failure _ => catch "Erro ao criar subgrupo" checkConnection
  end.

Definition handleAddFile (response : PostgrestSingleResponse File.t)
    (checkConnection : bool) : Handler unit :=
  render ← snapshot;
  if negb (truthy_opt (selectedSubgroup render))
     || negb (truthy (newFileName render))
     || negb (truthy (newFileLink render))
     || negb (truthy_opt (userId render))
     || negb (isConnected render)
  then mret tt else
  remote (InsertFile (newFileName render) (newFileLink render)
                     (selectedSubgroup render) (userId render)) ;;
  match response with
  | Success data =>
    setGroups (appendFile (selectedSubgroup render) data (groups render)) ;;
    setNewFileName [] ;;
    setNewFileLink [] ;;
    setError None
  | Failure _ => catch "Erro ao adicionar arquivo" checkConnection
  end.

(** ** Deletion

    The answer of a delete is [{ error }]. The name looked up with [find]
    before the request only feeds the toast message. *)

(** [groups.filter(group => group.id !== groupId)] *)
Definition removeGroup (groupId : jsstring) (groups : list GroupWithDetails.t)
    : list GroupWithDetails.t :=
  filter (λ group, GroupWithDetails.id group ≠ groupId) groups.

(** [groups.map(group => ({ ...group, subgroups:
      group.subgroups.filter(subgroup => subgroup.id !== subgroupId) }))] *)
Definition removeSubgroup (subgroupId : jsstring)
    (groups : list GroupWithDetails.t) : list GroupWithDetails.t :=
  (λ group,
     {| GroupWithDetails.row := GroupWithDetails.row group;
        GroupWithDetails.isExpanded := GroupWithDetails.isExpanded group;
        GroupWithDetails.subgroups :=
          filter (λ subgroup, SubgroupWithDetails.id subgroup ≠ subgroupId)
                 (GroupWithDetails.subgroups group) |})
  <$> groups.

(** [groups.map(group => ({ ...group, subgroups:
      group.subgroups.map(subgroup => ({ ...subgroup, files:
        subgroup.files.filter(file => file.id !== fileId) })) }))] *)
Definition removeFile (fileId : jsstring) (groups : list GroupWithDetails.t)
    : list GroupWithDetails.t :=
  (λ group,
     {| GroupWithDetails.row := GroupWithDetails.row group;
        GroupWithDetails.isExpanded := GroupWithDetails.isExpanded group;
        GroupWithDetails.subgroups :=
          (λ subgroup,
             {| SubgroupWithDetails.row := SubgroupWithDetails.row subgroup;
                SubgroupWithDetails.isExpanded :=
                  SubgroupWithDetails.isExpanded subgroup;
                SubgroupWithDetails.files :=
                  filter (λ file, File.id file ≠ fileId)
                         (SubgroupWithDetails.files subgroup) |})
          <$> GroupWithDetails.subgroups group |})
  <$> groups.

Definition handleDeleteGroup (groupId : jsstring)
    (response : option PostgrestError) (checkConnection : bool)
    : Handler unit :=
  render ← snapshot;
  if negb (isConnected render) then mret tt else
  remote (Delete groups_table groupId) ;;
  match response with
  | None =>
    setGroups (removeGroup groupId (groups render)) ;;
    (if bool_decide (selectedGroup render = Some groupId) then
       setSelectedGroup None ;; setSelectedSubgroup None
     else mret tt) ;;
    setError None
  | Some _ => catch "Erro ao deletar grupo" checkConnection
  end.

Definition handleDeleteSubgroup (subgroupId : jsstring)
    (response : option PostgrestError) (checkConnection : bool)
    : Handler unit :=
  render ← snapshot;
  if negb (isConnected render) then mret tt else
  remote (Delete subgroups_table subgroupId) ;;
  match response with
  | None =>
    setGroups (removeSubgroup subgroupId (groups render)) ;;
    (if bool_decide (selectedSubgroup render = Some subgroupId) then
       setSelectedSubgroup None
     else mret tt) ;;
    setError None
  | Some _ => catch "Erro ao deletar subgrupo" checkConnection
  end.

Definition handleDeleteFile (fileId : jsstring)
    (response : option PostgrestError) (checkConnection : bool)
    : Handler unit :=
  render ← snapshot;
  if negb (isConnected render) then mret tt else
  remote (Delete files_table fileId) ;;
  match response with
  | None =>
    setGroups (removeFile fileId (groups render)) ;;
    setError None
  | Some _ => catch "Erro ao deletar arquivo" checkConnection
  end.

(** ** Expand / collapse, and selection by click *)

(** [groups.map(group => group.id === groupId
      ? { ...group, isExpanded: !group.isExpanded } : group)] *)
Definition flipGroup (groupId : jsstring) (groups : list GroupWithDetails.t)
    : list GroupWithDetails.t :=
  (λ group,
     if bool_decide (GroupWithDetails.id group = groupId) then
       {| GroupWithDetails.row := GroupWithDetails.row group;
          GroupWithDetails.subgroups := GroupWithDetails.subgroups group;
          GroupWithDetails.isExpanded :=
            negb (GroupWithDetails.isExpanded group) |}
     else group)
  <$> groups.

(** [groups.map(group => group.id === groupId
      ? { ...group, subgroups: group.subgroups.map(subgroup =>
            subgroup.id === subgroupId
              ? { ...subgroup, isExpanded: !subgroup.isExpanded }
              : subgroup) }
      : group)] *)
Definition flipSubgroup (groupId subgroupId : jsstring)
    (groups : list GroupWithDetails.t) : list GroupWithDetails.t :=
  (λ group,
     if bool_decide (GroupWithDetails.id group = groupId) then
       {| GroupWithDetails.row := GroupWithDetails.row group;
          GroupWithDetails.isExpanded := GroupWithDetails.isExpanded group;
          GroupWithDetails.subgroups :=
            (λ subgroup,
               if bool_decide (SubgroupWithDetails.id subgroup = subgroupId)
               then
                 {| SubgroupWithDetails.row := SubgroupWithDetails.row subgroup;
                    SubgroupWithDetails.files :=
                      SubgroupWithDetails.files subgroup;
                    SubgroupWithDetails.isExpanded :=
                      negb (SubgroupWithDetails.isExpanded subgroup) |}
               else subgroup)
            <$> GroupWithDetails.subgroups group |}
     else group)
  <$> groups.

Definition toggleGroup (groupId : jsstring) : Handler unit :=
  render ← snapshot;
  setGroups (flipGroup groupId (groups render)).

Definition toggleSubgroup (groupId subgroupId : jsstring) : Handler unit :=
  render ← snapshot;
  setGroups (flipSubgroup groupId subgroupId (groups render)).

(** [onClick] of a group row and of a subgroup row. The subgroup rows are
    not nested inside the clickable group row, so a click on a subgroup
    sets the selected subgroup only. *)
Definition clickGroup (groupId : jsstring) : Handler unit :=
  setSelectedGroup (Some groupId).
Definition clickSubgroup (subgroupId : jsstring) : Handler unit :=
  setSelectedSubgroup (Some subgroupId).

(** ** The local checks of the creating handlers

    [true] when the handler gets past its first line and sends the
    insert. *)

Definition createGroup_ready (st : Dashboard) : bool :=
  truthy (trim (newGroupName st)) && truthy_opt (userId st) && isConnected st.

Definition createSubgroup_ready (st : Dashboard) : bool :=
  truthy (trim (newSubgroupName st)) && truthy_opt (userId st)
  && isConnected st.

Definition addFile_ready (st : Dashboard) : bool :=
  truthy_opt (selectedSubgroup st) && truthy (newFileName st)
  && truthy (newFileLink st) && truthy_opt (userId st) && isConnected st.

(** ** Shape of the tree *)


(** Every expand flag of the tree is [true]. *)
Definition all_expanded (tree : list GroupWithDetails.t) : Prop :=
  Forall (λ g,
    GroupWithDetails.isExpanded g = true
    ∧ Forall (λ s, SubgroupWithDetails.isExpanded s = true)
             (GroupWithDetails.subgroups g))
    tree.

(** The subgroup row [s] occurs somewhere in the tree; the file [f] occurs
    somewhere in the tree. *)
Definition subgroup_in_tree (s : Subgroup.t)
    (tree : list GroupWithDetails.t) : Prop :=
  ∃ g sd, g ∈ tree ∧ sd ∈ GroupWithDetails.subgroups g
          ∧ SubgroupWithDetails.row sd = s.

Definition file_in_tree (f : File.t) (tree : list GroupWithDetails.t) : Prop :=
  ∃ g sd, g ∈ tree ∧ sd ∈ GroupWithDetails.subgroups g
          ∧ f ∈ SubgroupWithDetails.files sd.

(** [st'] is [st] with at most the sticky error and the connectivity flag
    replaced. *)
Definition only_error_and_connectivity (st st' : Dashboard) : Prop :=
  st' = with_IsConnected (isConnected st') (with_Error (error st') st).

(** [st'] is [st] with at most the tree replaced. *)
Definition only_groups (st st' : Dashboard) : Prop :=
  st' = with_Groups (groups st') st.



(** Ascending creation time: each row is created no later than every row
    after it, [earlier] being the order of the timestamps. *)
Definition ascending {A} (earlier : relation jsstring)
    (created_at : A → jsstring) (rows : list A) : Prop :=
  StronglySorted (λ a b, earlier (created_at a) (created_at b)) rows.

(** How a failed mutation leaves the state: the tree as it was, nothing but
    the sticky error and the connectivity flag replaced, and, when the
    request was sent, the error set to the handler's message and the flag to
    the answer of the probe. *)
Definition failure_outcome (msg : string) (checkConnection requested : bool)
    (st st' : Dashboard) : Prop :=
  groups st' = groups st
  ∧ only_error_and_connectivity st st'
  ∧ (requested = true →
     error st' = Some (js msg) ∧ isConnected st' = checkConnection).

(** ** Transitions of the component

    Every way the state moves from one render to the next. The handlers
    above are the only callers of [setGroups]; whatever else happens
    (typing into an input, a click that selects, the session and
    connectivity bookkeeping) leaves the tree as it is. An insert answers
    with the row it created, so the parent reference of the answer is the
    one that was sent. *)
Inductive step : Dashboard → Dashboard → Prop :=
| step_fetchGroups groupsR subgroupsR filesR checkConnection st :
    step st (state_after
               (fetchGroups groupsR subgroupsR filesR checkConnection) st)
| step_handleCreateGroup response checkConnection st :
    step st (state_after (handleCreateGroup response checkConnection) st)
| step_handleCreateSubgroup groupId response checkConnection st :
    (∀ data, response = Success data → Subgroup.group_id data = groupId) →
    step st (state_after
               (handleCreateSubgroup groupId response checkConnection) st)
| step_handleAddFile response checkConnection st :
    (∀ data, response = Success data →
             Some (File.subgroup_id data) = selectedSubgroup st) →
    step st (state_after (handleAddFile response checkConnection) st)
| step_handleDeleteGroup groupId response checkConnection st :
    step st (state_after
               (handleDeleteGroup groupId response checkConnection) st)
| step_handleDeleteSubgroup subgroupId response checkConnection st :
    step st (state_after
               (handleDeleteSubgroup subgroupId response checkConnection) st)
| step_handleDeleteFile fileId response checkConnection st :
    step st (state_after
               (handleDeleteFile fileId response checkConnection) st)
| step_toggleGroup groupId st :
    step st (state_after (toggleGroup groupId) st)
| step_toggleSubgroup groupId subgroupId st :
    step st (state_after (toggleSubgroup groupId subgroupId) st)
| step_other st st' :
    groups st' = groups st → step st st'.

Definition reachable (st : Dashboard) : Prop := rtc step initial st.

(** ** Sample data *)

Module Sample.
Definition docs : Group.t :=
  {| Group.id := js "g1"; Group.name := js "Docs";
     Group.user_id := js "u1";
     Group.created_at := js "2024-01-01T10:00:00Z" |}.

Definition y2024 : Subgroup.t :=
  {| Subgroup.id := js "s1"; Subgroup.name := js "2024";
     Subgroup.group_id := js "g1"; Subgroup.user_id := js "u1";
     Subgroup.created_at := js "2024-01-01T10:01:00Z" |}.

Definition report : File.t :=
  {| File.id := js "f1"; File.name := js "report.pdf";
     File.link := js "https://x/y"; File.subgroup_id := js "s1";
     File.user_id := js "u1";
     File.created_at := js "2024-01-01T10:02:00Z" |}.

(** A subgroup whose group is not among the fetched groups. *)
Definition orphan : Subgroup.t :=
  {| Subgroup.id := js "s9"; Subgroup.name := js "lost";
     Subgroup.group_id := js "g9"; Subgroup.user_id := js "u1";
     Subgroup.created_at := js "2024-01-01T10:03:00Z" |}.

Definition denied : PostgrestError := {| message := js "denied" |}.

(** Signed in and connected, nothing loaded yet. *)
Definition signedIn : Dashboard := with_UserId (Some (js "u1")) initial.

(** After a first load that finds the three tables empty. *)
Definition emptyLoaded : Dashboard :=
  state_after
    (fetchGroups (mkResponse (Some []) None) (mkResponse (Some []) None)
                 (mkResponse (Some []) None) true)
    signedIn.

Definition groupsR : PostgrestResponse Group.t :=
  mkResponse (Some [docs]) None.
Definition subgroupsR : PostgrestResponse Subgroup.t :=
  mkResponse (Some [y2024; orphan]) None.
Definition filesR : PostgrestResponse File.t :=
  mkResponse (Some [report]) None.

(** After a first load that finds one group, two subgroups and one
    file. *)
Definition loaded : Dashboard :=
  state_after (fetchGroups groupsR subgroupsR filesR true) signedIn.

(** The user clicks the row of subgroup "2024"; no group was clicked. *)
Definition subgroupClicked : Dashboard :=
  state_after (clickSubgroup (js "s1")) loaded.

(** A single blank typed as the file name, a link typed, the subgroup
    selected. *)
Definition blankFileName : Dashboard :=
  with_NewFileLink (js "https://x/y")
    (with_NewFileName (js " ") subgroupClicked).

(** Only blanks typed as the group name. *)
Definition blankGroupName : Dashboard :=
  with_NewGroupName (js "   ") emptyLoaded.

(** "2025" typed as the name of a new subgroup. *)
Definition subgroupNameTyped : Dashboard :=
  with_NewSubgroupName (js "2025") loaded.

(** "Docs" typed as the name of a new group. *)
Definition groupNameTyped : Dashboard :=
  with_NewGroupName (js "Docs") emptyLoaded.

(** The scenario of the three creations, with what the user types and
    selects in between. *)
Definition groupCreated : Dashboard :=
  state_after (handleCreateGroup (Success docs) true) groupNameTyped.
Definition subgroupFormFilled : Dashboard :=
  with_NewSubgroupName (js "2024")
    (with_AddingSubgroupTo (Some (js "g1"))
       (with_SelectedGroup (Some (js "g1")) groupCreated)).
Definition subgroupCreated : Dashboard :=
  state_after (handleCreateSubgroup (js "g1") (Success y2024) true)
    subgroupFormFilled.
Definition fileFormFilled : Dashboard :=
  with_NewFileLink (js "https://x/y")
    (with_NewFileName (js "report.pdf")
       (with_SelectedSubgroup (Some (js "s1")) subgroupCreated)).
Definition fileAdded : Dashboard :=
  state_after (handleAddFile (Success report) true) fileFormFilled.

(** Strings compared code unit by code unit; timestamps of one format
    and zone are ordered this way. *)
Fixpoint lex_leb (a b : jsstring) : bool :=
  match a, b with
  | [], _ => true
  | _ :: _, [] => false
  | x :: a', y :: b' =>
    if x <? y then true else if y <? x then false else lex_leb a' b'
  end.
Definition earlier (a b : jsstring) : Prop := lex_leb a b = true.

(** An earlier operation left a sticky error. *)
Definition withError (st : Dashboard) : Dashboard :=
  with_Error (Some (js "Erro ao criar grupo")) st.
End Sample.

(** * The rest of the component, and the application shell *)

(** ** Any remote handler, and runs of them *)

(** One invocation of a handler that talks to the remote service, with the
    answers it gets. *)
Inductive Call : Type :=
| CallFetchGroups (groupsR : PostgrestResponse Group.t)
    (subgroupsR : PostgrestResponse Subgroup.t)
    (filesR : PostgrestResponse File.t)
| CallCreateGroup (response : PostgrestSingleResponse Group.t)
| CallCreateSubgroup (groupId : jsstring)
    (response : PostgrestSingleResponse Subgroup.t)
| CallAddFile (response : PostgrestSingleResponse File.t)
| CallDeleteGroup (groupId : jsstring) (response : option PostgrestError)
| CallDeleteSubgroup (subgroupId : jsstring)
    (response : option PostgrestError)
| CallDeleteFile (fileId : jsstring) (response : option PostgrestError).

Definition run (c : Call) (checkConnection : bool) : Handler unit :=
  match c with
  | CallFetchGroups groupsR subgroupsR filesR =>
    fetchGroups groupsR subgroupsR filesR checkConnection
  | CallCreateGroup response => handleCreateGroup response checkConnection
  | CallCreateSubgroup groupId response =>
    handleCreateSubgroup groupId response checkConnection
  | CallAddFile response => handleAddFile response checkConnection
  | CallDeleteGroup groupId response =>
    handleDeleteGroup groupId response checkConnection
  | CallDeleteSubgroup subgroupId response =>
    handleDeleteSubgroup subgroupId response checkConnection
  | CallDeleteFile fileId response =>
    handleDeleteFile fileId response checkConnection
  end.

(** Handlers invoked one after the other, each in the render that follows
    the one before; each comes with the answer its connectivity probe would
    get. *)
Fixpoint runAll (calls : list (Call * bool)) : Handler unit :=
  match calls with
  | [] => mret tt
  | (c, checkConnection) :: rest => run c checkConnection ;; runAll rest
  end.

(** The call is a creation or a load. *)
Definition creates_or_loads (c : Call) : bool :=
  match c with
  | CallFetchGroups _ _ _ | CallCreateGroup _ | CallCreateSubgroup _ _
  | CallAddFile _ => true
  | _ => false
  end.

(** ** Ids that occur in the tree *)

Definition group_id_absent (groupId : jsstring)
    (tree : list GroupWithDetails.t) : Prop :=
  Forall (λ g, GroupWithDetails.id g ≠ groupId) tree.

Definition subgroup_id_absent (subgroupId : jsstring)
    (tree : list GroupWithDetails.t) : Prop :=
  Forall (λ g,
    Forall (λ s, SubgroupWithDetails.id s ≠ subgroupId)
           (GroupWithDetails.subgroups g))
    tree.

Definition file_id_absent (fileId : jsstring)
    (tree : list GroupWithDetails.t) : Prop :=
  Forall (λ g,
    Forall (λ s,
      Forall (λ f, File.id f ≠ fileId) (SubgroupWithDetails.files s))
      (GroupWithDetails.subgroups g))
    tree.

(** Every sequence of the tree (the groups, the subgroups of each group,
    the files of each subgroup) is in ascending creation time. *)
Definition tree_ascending (earlier : relation jsstring)
    (tree : list GroupWithDetails.t) : Prop :=
  ascending earlier Group.created_at (GroupWithDetails.row <$> tree)
  ∧ Forall (λ g,
      ascending earlier Subgroup.created_at
        (SubgroupWithDetails.row <$> GroupWithDetails.subgroups g)
      ∧ Forall (λ s,
          ascending earlier File.created_at (SubgroupWithDetails.files s))
          (GroupWithDetails.subgroups g))
      tree.

(** ** What the component renders *)

(** [if (isLoading) return <div>Carregando...</div>] comes before the main
    view, which holds the banners, the tree and the forms. *)
Inductive Screen : Type := LoadingScreen | MainScreen.

Definition screen (st : Dashboard) : Screen :=
  if isLoading st then LoadingScreen else MainScreen.

(** [{error && <div>...{error}</div>}] of the main view: the message the
    user reads, if any. *)
Definition errorBanner (st : Dashboard) : option jsstring :=
  match screen st with
  | LoadingScreen => None
  | MainScreen => if truthy_opt (error st) then error st else None
  end.

(** The file list of the right-hand pane:
    [groups.flatMap(group => group.subgroups)
       .find(subgroup => subgroup.id === selectedSubgroup)?.files];
    [None] is [undefined]. *)
Definition selectedFiles (st : Dashboard) : option (list File.t) :=
  (λ found, SubgroupWithDetails.files found.2)
  <$> list_find (λ subgroup,
                   Some (SubgroupWithDetails.id subgroup)
                   = selectedSubgroup st)
                (groups st ≫= GroupWithDetails.subgroups).

(** ** Start of the component *)

(** A promise that resolves with a value or is rejected. *)
Inductive Outcome (A : Type) : Type :=
| Resolved (value : A)
| Rejected.
Arguments Resolved {A} _.
Arguments Rejected {A}.

Inductive AuthCall : Type := GetSession | GetUser | SignOut.

(** What the component does to the outside: a request to the data service,
    a call of the auth client, a call of the [onLogout] prop. *)
Inductive Effect : Type :=
| Remote (r : Request)
| Auth (a : AuthCall)
| OnLogout.

Definition Component (A : Type) : Type :=
  Dashboard → A * Dashboard * list Effect.

#[export] Instance Component_ret : MRet Component := λ A x st, (x, st, []).

#[export] Instance Component_bind : MBind Component := λ A B k m st,
  let '(x, st1, done1) := m st in
  let '(y, st2, done2) := k x st1 in
  (y, st2, done1 ++ done2).

Definition effect (e : Effect) : Component unit := λ st, (tt, st, [e]).

(** A handler of the data service as part of the component. *)
Definition lift {A} (h : Handler A) : Component A := λ st,
  let '(x, st', requests) := h st in (x, st', Remote <$> requests).

(** State after a part of the component ran, and what it did. *)
Definition state_of {A} (c : Component A) (st : Dashboard) : Dashboard :=
  (c st).1.2.
Definition effects_of {A} (c : Component A) (st : Dashboard) : list Effect :=
  (c st).2.

(** ['Erro de conexão com o banco de dados. Por favor, recarregue a
    página.'] *)
Definition connection_error : jsstring :=
  js "Erro de conex" ++ [227] ++ js "o com o banco de dados. Por favor, "
  ++ js "recarregue a p" ++ [225] ++ js "gina.".

(** ['Erro ao inicializar a aplicação'] *)
Definition initialize_error : jsstring :=
  js "Erro ao inicializar a aplica" ++ [231; 227] ++ js "o".

(** [initializeApp], given what [getSession] resolves to (a session or
    [null]), the answer of the connectivity probe, and what [getUser]
    resolves to (the id of the user, or [null]). A rejected promise goes to
    the [catch]. *)
Definition initializeApp (getSession : Outcome (option unit))
    (checkConnection : bool) (getUser : Outcome (option jsstring))
    : Component unit :=
  let caught : Component unit :=
    lift (setError (Some initialize_error)) ;; effect OnLogout in
  effect (Auth GetSession) ;;
  match getSession with
  | Rejected => caught
  | Resolved None => effect OnLogout
  | Resolved (Some _) =>
    effect (Remote CheckConnection) ;;
    lift (setIsConnected checkConnection) ;;
    if negb checkConnection then lift (setError (Some connection_error))
    else
      effect (Auth GetUser) ;;
      match getUser with
      | Rejected => caught
      | Resolved (Some user_id) => lift (setUserId (Some user_id))
      | Resolved None => effect OnLogout
      end
  end.

(** [useEffect(() => { if (userId && isConnected) fetchGroups(); },
               [userId, isConnected])] *)
Definition fetchEffect (groupsR : PostgrestResponse Group.t)
    (subgroupsR : PostgrestResponse Subgroup.t)
    (filesR : PostgrestResponse File.t) (checkConnection : bool)
    : Handler unit :=
  render ← snapshot;
  if truthy_opt (userId render) && isConnected render
  then fetchGroups groupsR subgroupsR filesR checkConnection
  else mret tt.

(** ** The application shell (App.tsx) *)

Module App.
Record State : Type := mkState { isAuthenticated : bool; isLoading : bool }.

Definition initial : State :=
  {| isAuthenticated := false; isLoading := true |}.

Definition setIsAuthenticated (v : bool) (st : State) : State :=
  {| isAuthenticated := v; isLoading := isLoading st |}.
Definition setIsLoading (v : bool) (st : State) : State :=
  {| isAuthenticated := isAuthenticated st; isLoading := v |}.

(** [checkUser]: [getSession] resolves to a session or [null], or is
    rejected; [finally] ends the loading. *)
Definition checkUser (getSession : Outcome (option unit)) (st : State)
    : State :=
  setIsLoading false
    (match getSession with
     | Resolved session => setIsAuthenticated (bool_decide (is_Some session)) st
     | Rejected => st
     end).

(** The callback given to [onAuthStateChange]. *)
Definition authStateChanged (session : option unit) (st : State) : State :=
  setIsLoading false (setIsAuthenticated (bool_decide (is_Some session)) st).

Definition handleLogin (success : bool) (st : State) : State :=
  setIsAuthenticated success st.

(** [handleLogout]: the state is touched only if [signOut] is not
    rejected. *)
Definition handleLogout (signOut : Outcome unit) (st : State) : State :=
  match signOut with
  | Resolved _ => setIsAuthenticated false st
  | Rejected => st
  end.

Inductive View : Type := LoadingView | LoginView | DashboardView.

Definition render (st : State) : View :=
  if isLoading st then LoadingView
  else if negb (isAuthenticated st) then LoginView else DashboardView.

(** The shell's reaction to what the dashboard did: each call of the
    [onLogout] prop is a [handleLogout]; [signOut] is what the sign-out of
    each of them resolves to. *)
Fixpoint onEffects (effects : list Effect) (signOut : Outcome unit)
    (st : State) : State :=
  match effects with
  | [] => st
  | OnLogout :: rest => onEffects rest signOut (handleLogout signOut st)
  | _ :: rest => onEffects rest signOut st
  end.
End App.

(** ** More sample data *)

Module Walk.
(** The remote refuses a delete and the probe that follows answers
    [false]. *)
Definition offline : Dashboard :=
  state_after (handleDeleteGroup (js "g1") (Some Sample.denied) false)
    Sample.fileAdded.

(** Some handlers the user may try next. *)
Definition attempts : list (Call * bool) :=
  [ (CallCreateGroup (Success Sample.docs), true);
    (CallDeleteFile (js "f1") None, true);
    (CallFetchGroups Sample.groupsR Sample.subgroupsR Sample.filesR, true) ].

(** A second group, fetched after "Docs", with one subgroup. *)
Definition music : Group.t :=
  {| Group.id := js "g2"; Group.name := js "Music";
     Group.user_id := js "u1";
     Group.created_at := js "2024-01-02T09:00:00Z" |}.
Definition live : Subgroup.t :=
  {| Subgroup.id := js "s2"; Subgroup.name := js "Live";
     Subgroup.group_id := js "g2"; Subgroup.user_id := js "u1";
     Subgroup.created_at := js "2024-01-02T09:01:00Z" |}.
Definition notes : File.t :=
  {| File.id := js "f2"; File.name := js "notes.txt";
     File.link := js "https://x/n"; File.subgroup_id := js "s1";
     File.user_id := js "u1";
     File.created_at := js "2024-01-02T09:02:00Z" |}.

(** Two groups loaded; the user clicks group "Music", then the row of
    subgroup "2024", which is in "Docs". *)
Definition twoGroups : Dashboard :=
  state_after
    (fetchGroups (mkResponse (Some [Sample.docs; music]) None)
                 (mkResponse (Some [Sample.y2024; live]) None)
                 (mkResponse (Some [Sample.report]) None) true)
    Sample.signedIn.
Definition crossSelected : Dashboard :=
  state_after (clickSubgroup (js "s1"))
    (state_after (clickGroup (js "g2")) twoGroups).

(** After a load the user clicks the row of subgroup "2024" and types a
    name and a link into the file form. *)
Definition fileTyped : Dashboard :=
  with_NewFileLink (js "https://x/n")
    (with_NewFileName (js "notes.txt") Sample.subgroupClicked).
End Walk.

(** * Properties *)

(** ** One equation per handler *)

Ltac unfold_monad :=
  cbv [mbind mret Handler_bind Handler_ret snapshot catch remote update
       setGroups setNewGroupName setSelectedGroup setSelectedSubgroup
       setNewFileName setNewFileLink setAddingSubgroupTo setNewSubgroupName
       setIsLoading setError setIsConnected].

Ltac split_checks :=
  repeat match goal with
    | |- context [truthy ?s] => destruct (truthy s)
    | |- context [truthy_opt ?s] => destruct (truthy_opt s)
    | |- context [isConnected ?s] => destruct (isConnected s)
    | |- context [bool_decide ?P] => destruct (bool_decide P)
    end.

Lemma handleCreateGroup_eq response checkConnection st :
  handleCreateGroup response checkConnection st =
  if createGroup_ready st then
    match response with
    | Success data =>
      (tt,
       with_Error None
         (with_NewGroupName [] (with_Groups (appendGroup data (groups st)) st)),
       [InsertGroup (newGroupName st) (userId st)])
    | Failure _ =>
      (tt,
       with_IsConnected checkConnection
         (with_Error (Some (js "Erro ao criar grupo")) st),
       [InsertGroup (newGroupName st) (userId st); CheckConnection])
    end
  else (tt, st, []).
Proof.
  unfold handleCreateGroup, createGroup_ready. unfold_monad.
  split_checks; destruct response; reflexivity.
Qed.

Lemma handleCreateSubgroup_eq groupId response checkConnection st :
  handleCreateSubgroup groupId response checkConnection st =
  if createSubgroup_ready st then
    match response with
    | Success data =>
      (tt,
       with_Error None
         (with_AddingSubgroupTo None
            (with_NewSubgroupName []
               (with_Groups (appendSubgroup groupId data (groups st)) st))),
       [InsertSubgroup (newSubgroupName st) groupId (userId st)])
    | Failure _ =>
      (tt,
       with_IsConnected checkConnection
         (with_Error (Some (js "Erro ao criar subgrupo")) st),
       [InsertSubgroup (newSubgroupName st) groupId (userId st);
        CheckConnection])
    end
  else (tt, st, []).
Proof.
  unfold handleCreateSubgroup, createSubgroup_ready. unfold_monad.
  split_checks; destruct response; reflexivity.
Qed.

Lemma handleAddFile_eq response checkConnection st :
  handleAddFile response checkConnection st =
  if addFile_ready st then
    match response with
    | Success data =>
      (tt,
       with_Error None
         (with_NewFileLink []
            (with_NewFileName []
               (with_Groups
                  (appendFile (selectedSubgroup st) data (groups st)) st))),
       [InsertFile (newFileName st) (newFileLink st) (selectedSubgroup st)
                   (userId st)])
    | Failure _ =>
      (tt,
       with_IsConnected checkConnection
         (with_Error (Some (js "Erro ao adicionar arquivo")) st),
       [InsertFile (newFileName st) (newFileLink st) (selectedSubgroup st)
                   (userId st);
        CheckConnection])
    end
  else (tt, st, []).
Proof.
  unfold handleAddFile, addFile_ready. unfold_monad.
  split_checks; destruct response; reflexivity.
Qed.

Lemma handleDeleteGroup_eq groupId response checkConnection st :
  handleDeleteGroup groupId response checkConnection st =
  if isConnected st then
    match response with
    | None =>
      (tt,
       with_Error None
         (let st1 := with_Groups (removeGroup groupId (groups st)) st in
          if bool_decide (selectedGroup st = Some groupId)
          then with_SelectedSubgroup None (with_SelectedGroup None st1)
          else st1),
       [Delete groups_table groupId])
    | Some _ =>
      (tt,
       with_IsConnected checkConnection
         (with_Error (Some (js "Erro ao deletar grupo")) st),
       [Delete groups_table groupId; CheckConnection])
    end
  else (tt, st, []).
Proof.
  unfold handleDeleteGroup. unfold_monad.
  destruct (isConnected st), response; try reflexivity.
  cbn. destruct (bool_decide _); reflexivity.
Qed.

Lemma handleDeleteSubgroup_eq subgroupId response checkConnection st :
  handleDeleteSubgroup subgroupId response checkConnection st =
  if isConnected st then
    match response with
    | None =>
      (tt,
       with_Error None
         (let st1 := with_Groups (removeSubgroup subgroupId (groups st)) st in
          if bool_decide (selectedSubgroup st = Some subgroupId)
          then with_SelectedSubgroup None st1
          else st1),
       [Delete subgroups_table subgroupId])
    | Some _ =>
      (tt,
       with_IsConnected checkConnection
         (with_Error (Some (js "Erro ao deletar subgrupo")) st),
       [Delete subgroups_table subgroupId; CheckConnection])
    end
  else (tt, st, []).
Proof.
  unfold handleDeleteSubgroup. unfold_monad.
  destruct (isConnected st), response; try reflexivity.
  cbn. destruct (bool_decide _); reflexivity.
Qed.

Lemma handleDeleteFile_eq fileId response checkConnection st :
  handleDeleteFile fileId response checkConnection st =
  if isConnected st then
    match response with
    | None =>
      (tt, with_Error None (with_Groups (removeFile fileId (groups st)) st),
       [Delete files_table fileId])
    | Some _ =>
      (tt,
       with_IsConnected checkConnection
         (with_Error (Some (js "Erro ao deletar arquivo")) st),
       [Delete files_table fileId; CheckConnection])
    end
  else (tt, st, []).
Proof.
  unfold handleDeleteFile. unfold_monad.
  destruct (isConnected st), response; reflexivity.
Qed.

Lemma fetchGroups_ok groupsR subgroupsR filesR checkConnection st :
  isConnected st = true →
  error_of groupsR = None → error_of subgroupsR = None →
  error_of filesR = None →
  fetchGroups groupsR subgroupsR filesR checkConnection st =
  (tt,
   with_IsLoading false
     (with_Error None
        (with_Groups
           (groupsWithDetails (data groupsR) (data subgroupsR) (data filesR))
           st)),
   [Select groups_table; Select subgroups_table; Select files_table]).
Proof.
  intros Hc Hg Hs Hf. unfold fetchGroups. unfold_monad.
  rewrite Hc, Hg, Hs, Hf. reflexivity.
Qed.

Lemma fetchGroups_failed groupsR subgroupsR filesR checkConnection st :
  isConnected st = true →
  ¬ (error_of groupsR = None ∧ error_of subgroupsR = None
     ∧ error_of filesR = None) →
  state_after (fetchGroups groupsR subgroupsR filesR checkConnection) st =
  with_IsLoading false
    (with_IsConnected checkConnection
       (with_Error (Some (js "Erro ao carregar os dados")) st)).
Proof.
  intros Hc Hg. unfold state_after, fetchGroups. unfold_monad. rewrite Hc.
  destruct (error_of groupsR), (error_of subgroupsR), (error_of filesR);
    try reflexivity.
  exfalso. auto.
Qed.

Lemma fetchGroups_offline groupsR subgroupsR filesR checkConnection st :
  isConnected st = false →
  fetchGroups groupsR subgroupsR filesR checkConnection st = (tt, st, []).
Proof.
  intros Hc. unfold fetchGroups. unfold_monad. rewrite Hc. reflexivity.
Qed.

(** ** The local checks, read as propositions *)

Lemma truthy_true (s : jsstring) : truthy s = true ↔ s ≠ [].
Proof. destruct s; cbn; split; congruence. Qed.

Lemma createGroup_ready_true st :
  createGroup_ready st = true ↔
  trim (newGroupName st) ≠ [] ∧ truthy_opt (userId st) = true
  ∧ isConnected st = true.
Proof.
  unfold createGroup_ready. rewrite !andb_true_iff, truthy_true. tauto.
Qed.

Lemma createSubgroup_ready_true st :
  createSubgroup_ready st = true ↔
  trim (newSubgroupName st) ≠ [] ∧ truthy_opt (userId st) = true
  ∧ isConnected st = true.
Proof.
  unfold createSubgroup_ready. rewrite !andb_true_iff, truthy_true. tauto.
Qed.

Lemma addFile_ready_true st :
  addFile_ready st = true ↔
  truthy_opt (selectedSubgroup st) = true ∧ newFileName st ≠ []
  ∧ newFileLink st ≠ [] ∧ truthy_opt (userId st) = true
  ∧ isConnected st = true.
Proof.
  unfold addFile_ready. rewrite !andb_true_iff, !truthy_true. tauto.
Qed.

(** ** Local rejection *)

(** C8: when the group name is empty after trimming, or there is no signed-in
    user, or the connectivity flag is false, [handleCreateGroup] sends
    nothing and leaves the whole state as it was, whatever the remote would
    have answered. *)
Theorem createGroup_rejected_locally response checkConnection st :
  trim (newGroupName st) = [] ∨ userId st = None ∨ isConnected st = false →
  sent (handleCreateGroup response checkConnection) st = []
  ∧ state_after (handleCreateGroup response checkConnection) st = st.
Proof.
  intros H. unfold sent, state_after. rewrite handleCreateGroup_eq.
  assert (createGroup_ready st = false) as ->; [|done].
  unfold createGroup_ready.
  destruct H as [H | [H | H]]; rewrite H; cbn;
    rewrite ?andb_false_r; reflexivity.
Qed.

Lemma createGroup_rejected_locally_witness :
  trim (newGroupName Sample.blankGroupName) = []
  ∧ sent (handleCreateGroup (Success Sample.docs) true) Sample.blankGroupName
    = []
  ∧ state_after (handleCreateGroup (Success Sample.docs) true)
      Sample.blankGroupName
    = Sample.blankGroupName.
Proof.
  split; [reflexivity|].
  apply (createGroup_rejected_locally (Success Sample.docs) true
           Sample.blankGroupName).
  left. reflexivity.
Defined.

(** The part of the file form's check that the code has: an empty name or
    an empty link is rejected locally. *)
Lemma addFile_empty_rejected response checkConnection st :
  newFileName st = [] ∨ newFileLink st = [] →
  handleAddFile response checkConnection st = (tt, st, []).
Proof.
  intros H. rewrite handleAddFile_eq.
  assert (addFile_ready st = false) as ->; [|done].
  unfold addFile_ready.
  destruct H as [H | H]; rewrite H; cbn;
    rewrite ?andb_false_r; reflexivity.
Qed.

(** C2, at the input where it fails: the file name is a single blank, so it
    is empty after trimming, and [handleAddFile] still sends the insert; when
    the remote accepts it the file is added to the tree and the inputs are
    cleared. The check of the file form tests the raw strings, where the
    group and subgroup forms test the trimmed name. *)
Theorem addFile_blank_name_sent :
  let st := Sample.blankFileName in
  let blank :=
    {| File.id := js "f2"; File.name := js " "; File.link := js "https://x/y";
       File.subgroup_id := js "s1"; File.user_id := js "u1";
       File.created_at := js "2024-01-01T10:04:00Z" |} in
  let h := handleAddFile (Success blank) true in
  trim (newFileName st) = []
  ∧ sent h st
    = [InsertFile (js " ") (js "https://x/y") (Some (js "s1"))
                  (Some (js "u1"))]
  ∧ file_in_tree blank (groups (state_after h st))
  ∧ ¬ file_in_tree blank (groups st)
  ∧ newFileName (state_after h st) = [].
Proof.
  cbv zeta. split; [reflexivity|]. split; [reflexivity|].
  split; [|split; [|reflexivity]].
  - eexists _, _. vm_compute. split; [left|]. split; [left|].
    apply list_elem_of_In. right. left. reflexivity.
  - intros (g & sd & Hg & Hsd & Hf). vm_compute in Hg.
    apply list_elem_of_singleton in Hg as ->.
    cbn in Hsd. apply list_elem_of_singleton in Hsd as ->.
    cbn in Hf. apply list_elem_of_singleton in Hf. discriminate Hf.
Qed.

(** ** Deleting a group *)

(** What [handleDeleteGroup] does on remote success: exactly the groups
    with another id stay, in their order and untouched, so the group and
    everything nested in it are gone; if the deleted group was the selected
    one, both selections are cleared. *)
Lemma deleteGroup_removes groupId checkConnection st :
  isConnected st = true →
  let st' := state_after (handleDeleteGroup groupId None checkConnection) st in
  groups st' = filter (λ g, GroupWithDetails.id g ≠ groupId) (groups st)
  ∧ (∀ g, g ∈ groups st' ↔ g ∈ groups st ∧ GroupWithDetails.id g ≠ groupId)
  ∧ (selectedGroup st = Some groupId →
     selectedGroup st' = None ∧ selectedSubgroup st' = None).
Proof.
  intros Hc st'. subst st'. unfold state_after.
  rewrite handleDeleteGroup_eq, Hc. cbn.
  split; [|split].
  - destruct (bool_decide _); reflexivity.
  - intros g. destruct (bool_decide _); cbn; unfold removeGroup;
      rewrite list_elem_of_filter; tauto.
  - intros Hsel. rewrite bool_decide_eq_true_2 by done. done.
Qed.

Lemma reachable_loaded : reachable Sample.loaded.
Proof.
  unfold reachable.
  eapply rtc_l; [apply (step_other _ Sample.signedIn); reflexivity|].
  apply rtc_once.
  apply (step_fetchGroups Sample.groupsR Sample.subgroupsR Sample.filesR true).
Qed.

(** C1, at the input where it fails: after a load the user clicks the row
    of subgroup s1 (no group is selected) and deletes its group g1. The
    group and the subgroup nested in it are removed, and the selected
    subgroup still is s1, an id that is no longer in the tree. Only a
    selected group equal to the deleted id makes the handler clear the
    selections. *)
Theorem deleteGroup_keeps_nested_selection :
  let st := Sample.subgroupClicked in
  let st' := state_after (handleDeleteGroup (js "g1") None true) st in
  reachable st
  ∧ subgroup_in_tree Sample.y2024 (groups st)
  ∧ selectedSubgroup st = Some (Subgroup.id Sample.y2024)
  ∧ groups st' = []
  ∧ selectedSubgroup st' = Some (Subgroup.id Sample.y2024).
Proof.
  cbv zeta. split; [|split; [|repeat split]].
  - eapply rtc_r; [exact reachable_loaded|]. apply step_other. reflexivity.
  - eexists _, _. vm_compute. split; [left|]. split; [left|]. reflexivity.
Qed.

(** ** The patches keep the tree well nested *)

Lemma Forall_filter_keep {A} (P : A → Prop) (Q : A → Prop)
    `{∀ x, Decision (Q x)} (l : list A) :
  Forall P l → Forall P (filter Q l).
Proof.
  rewrite !Forall_forall. intros HP x Hx.
  apply list_elem_of_filter in Hx as [_ Hx]. auto.
Qed.












(** ** What a load puts into the tree *)



(** ** Patches that find no target *)

Lemma appendSubgroup_absent groupId data tree :
  Forall (λ g, GroupWithDetails.id g ≠ groupId) tree →
  appendSubgroup groupId data tree = tree.
Proof.
  unfold appendSubgroup. induction 1 as [|g tree Hg _ IH]; [reflexivity|].
  cbn. rewrite bool_decide_eq_false_2 by exact Hg. f_equal. exact IH.
Qed.

Lemma appendFile_absent selected data tree :
  Forall (λ g, Forall (λ s, Some (SubgroupWithDetails.id s) ≠ selected)
                      (GroupWithDetails.subgroups g)) tree →
  appendFile selected data tree = tree.
Proof.
  unfold appendFile. induction 1 as [|g tree Hg _ IH]; [reflexivity|].
  cbn. f_equal; [|exact IH]. destruct g as [row subs ex]. cbn in *. f_equal.
  induction Hg as [|s subs Hs _ IHs]; [reflexivity|].
  cbn. rewrite bool_decide_eq_false_2 by exact Hs. f_equal. exact IHs.
Qed.






(** C10: when no group of the tree has the id passed to
    [handleCreateSubgroup] and the handler gets past its local checks (a name
    that is not empty after trimming, a signed-in user, the connectivity flag
    set), the insert is sent all the same, and when the remote accepts it the
    tree is exactly the one before: the created subgroup is in no group. *)
Theorem createSubgroup_unknown_group groupId data checkConnection st :
  (∀ g, g ∈ groups st → GroupWithDetails.id g ≠ groupId) →
  trim (newSubgroupName st) ≠ [] →
  truthy_opt (userId st) = true →
  isConnected st = true →
  let h := handleCreateSubgroup groupId (Success data) checkConnection in
  sent h st = [InsertSubgroup (newSubgroupName st) groupId (userId st)]
  ∧ groups (state_after h st) = groups st.
Proof.
  intros Habsent Hname Huser Hconn h. subst h. unfold sent, state_after.
  rewrite handleCreateSubgroup_eq.
  assert (createSubgroup_ready st = true) as ->
    by (by apply createSubgroup_ready_true).
  cbn. split; [reflexivity|].
  apply appendSubgroup_absent, Forall_forall, Habsent.
Qed.

Lemma createSubgroup_unknown_group_witness :
  let h := handleCreateSubgroup (js "g9") (Success Sample.orphan) true in
  sent h Sample.subgroupNameTyped
  = [InsertSubgroup (js "2025") (js "g9") (Some (js "u1"))]
  ∧ groups (state_after h Sample.subgroupNameTyped)
    = groups Sample.subgroupNameTyped.
Proof.
  apply (createSubgroup_unknown_group (js "g9") Sample.orphan true
           Sample.subgroupNameTyped); try reflexivity.
  - intros g Hg. vm_compute in Hg.
    apply list_elem_of_singleton in Hg as ->. discriminate.
  - discriminate.
Defined.

(** ** Expand and collapse *)

Lemma flipGroup_spec groupId tree :
  Forall2 (λ g g',
    GroupWithDetails.row g' = GroupWithDetails.row g
    ∧ GroupWithDetails.subgroups g' = GroupWithDetails.subgroups g
    ∧ GroupWithDetails.isExpanded g'
      = if bool_decide (GroupWithDetails.id g = groupId)
        then negb (GroupWithDetails.isExpanded g)
        else GroupWithDetails.isExpanded g)
    tree (flipGroup groupId tree).
Proof.
  unfold flipGroup. induction tree as [|g tree IH]; constructor; [|exact IH].
  case_bool_decide; done.
Qed.

Lemma flipSubgroup_spec groupId subgroupId tree :
  Forall2 (λ g g',
    GroupWithDetails.row g' = GroupWithDetails.row g
    ∧ GroupWithDetails.isExpanded g' = GroupWithDetails.isExpanded g
    ∧ Forall2 (λ s s',
        SubgroupWithDetails.row s' = SubgroupWithDetails.row s
        ∧ SubgroupWithDetails.files s' = SubgroupWithDetails.files s
        ∧ SubgroupWithDetails.isExpanded s'
          = if bool_decide (GroupWithDetails.id g = groupId)
               && bool_decide (SubgroupWithDetails.id s = subgroupId)
            then negb (SubgroupWithDetails.isExpanded s)
            else SubgroupWithDetails.isExpanded s)
        (GroupWithDetails.subgroups g) (GroupWithDetails.subgroups g'))
    tree (flipSubgroup groupId subgroupId tree).
Proof.
  unfold flipSubgroup. induction tree as [|g tree IH]; constructor; [|exact IH].
  case_bool_decide; cbn; (split; [done|split; [done|]]).
  - induction (GroupWithDetails.subgroups g) as [|s subs IHs];
      constructor; [|exact IHs].
    case_bool_decide; done.
  - induction (GroupWithDetails.subgroups g) as [|s subs IHs];
      constructor; [done|exact IHs].
Qed.

(** C7: [toggleGroup] and [toggleSubgroup] send nothing and replace nothing
    of the state but the tree, so both selections stay; in the tree every
    node keeps its row and its children, and an expand flag is negated
    exactly at the groups whose id is the target ([toggleGroup]), or at the
    subgroups whose id is the target inside the groups whose id is the
    target ([toggleSubgroup]). *)
Theorem toggle_flips_only_target groupId subgroupId st :
  let st1 := state_after (toggleGroup groupId) st in
  let st2 := state_after (toggleSubgroup groupId subgroupId) st in
  sent (toggleGroup groupId) st = []
  ∧ sent (toggleSubgroup groupId subgroupId) st = []
  ∧ only_groups st st1 ∧ only_groups st st2
  ∧ selectedGroup st1 = selectedGroup st
  ∧ selectedSubgroup st1 = selectedSubgroup st
  ∧ selectedGroup st2 = selectedGroup st
  ∧ selectedSubgroup st2 = selectedSubgroup st
  ∧ Forall2 (λ g g',
      GroupWithDetails.row g' = GroupWithDetails.row g
      ∧ GroupWithDetails.subgroups g' = GroupWithDetails.subgroups g
      ∧ GroupWithDetails.isExpanded g'
        = if bool_decide (GroupWithDetails.id g = groupId)
          then negb (GroupWithDetails.isExpanded g)
          else GroupWithDetails.isExpanded g)
      (groups st) (groups st1)
  ∧ Forall2 (λ g g',
      GroupWithDetails.row g' = GroupWithDetails.row g
      ∧ GroupWithDetails.isExpanded g' = GroupWithDetails.isExpanded g
      ∧ Forall2 (λ s s',
          SubgroupWithDetails.row s' = SubgroupWithDetails.row s
          ∧ SubgroupWithDetails.files s' = SubgroupWithDetails.files s
          ∧ SubgroupWithDetails.isExpanded s'
            = if bool_decide (GroupWithDetails.id g = groupId)
                 && bool_decide (SubgroupWithDetails.id s = subgroupId)
              then negb (SubgroupWithDetails.isExpanded s)
              else SubgroupWithDetails.isExpanded s)
          (GroupWithDetails.subgroups g) (GroupWithDetails.subgroups g'))
      (groups st) (groups st2).
Proof.
  cbv zeta. repeat split; try reflexivity.
  - apply flipGroup_spec.
  - apply flipSubgroup_spec.
Qed.

(** ** Loading *)

Lemma all_expanded_groupsWithDetails groups subgroups files :
  all_expanded (groupsWithDetails groups subgroups files).
Proof.
  unfold all_expanded, groupsWithDetails.
  apply Forall_fmap, Forall_forall. intros g _. cbn. split; [reflexivity|].
  apply Forall_fmap, Forall_forall. intros s _. reflexivity.
Qed.

Lemma fetchGroups_idempotent groupsR subgroupsR filesR checkConnection st :
  let load := fetchGroups groupsR subgroupsR filesR checkConnection in
  state_after load (state_after load st) = state_after load st.
Proof.
  cbv zeta. destruct (isConnected st) eqn:Hc.
  - destruct (decide (error_of groupsR = None ∧ error_of subgroupsR = None
                      ∧ error_of filesR = None)) as [(Hg & Hs & Hf)|Hfail].
    + unfold state_after. rewrite (fetchGroups_ok _ _ _ _ st) by done. cbn.
      rewrite fetchGroups_ok by done. reflexivity.
    + rewrite (fetchGroups_failed _ _ _ _ st) by done.
      destruct checkConnection.
      * rewrite fetchGroups_failed by done. reflexivity.
      * unfold state_after. rewrite fetchGroups_offline by done. reflexivity.
  - unfold state_after.
    rewrite (fetchGroups_offline _ _ _ _ st Hc). cbn.
    rewrite (fetchGroups_offline _ _ _ _ st Hc). reflexivity.
Qed.

(** C5: a second [fetchGroups] with the same answers leaves the state the
    first one produced; and a load that is let through and answered without
    error sets the tree to [groupsWithDetails] of the fetched rows, a
    function of the rows alone, whatever tree was there before, with every
    expand flag [true]. *)
Theorem loadAll_twice_same_tree groupsR subgroupsR filesR checkConnection st :
  let load := fetchGroups groupsR subgroupsR filesR checkConnection in
  state_after load (state_after load st) = state_after load st
  ∧ (isConnected st = true →
     error_of groupsR = None → error_of subgroupsR = None →
     error_of filesR = None →
     groups (state_after load st)
     = groupsWithDetails (data groupsR) (data subgroupsR) (data filesR)
     ∧ groups (state_after load (state_after load st))
       = groups (state_after load st)
     ∧ all_expanded (groups (state_after load st))
     ∧ ∀ st0, isConnected st0 = true →
              groups (state_after load st0) = groups (state_after load st)).
Proof.
  cbv zeta. split; [apply fetchGroups_idempotent|].
  intros Hc Hg Hs Hf.
  pose proof (fetchGroups_idempotent groupsR subgroupsR filesR
                checkConnection st) as Hidem. cbv zeta in Hidem.
  rewrite Hidem. unfold state_after. rewrite fetchGroups_ok by done. cbn.
  split; [reflexivity|]. split; [reflexivity|].
  split; [apply all_expanded_groupsWithDetails|].
  intros st0 Hc0. rewrite fetchGroups_ok by done. reflexivity.
Qed.

Lemma loadAll_twice_same_tree_witness :
  let load :=
    fetchGroups Sample.groupsR Sample.subgroupsR Sample.filesR true in
  state_after load (state_after load Sample.subgroupClicked)
  = state_after load Sample.subgroupClicked
  ∧ groups (state_after load Sample.signedIn)
    = [ {| GroupWithDetails.row := Sample.docs;
           GroupWithDetails.subgroups :=
             [ {| SubgroupWithDetails.row := Sample.y2024;
                  SubgroupWithDetails.files := [Sample.report];
                  SubgroupWithDetails.isExpanded := true |} ];
           GroupWithDetails.isExpanded := true |} ].
Proof.
  cbv zeta. split.
  - apply (loadAll_twice_same_tree Sample.groupsR Sample.subgroupsR
             Sample.filesR true Sample.subgroupClicked).
  - destruct (loadAll_twice_same_tree Sample.groupsR Sample.subgroupsR
                Sample.filesR true Sample.signedIn) as [_ H].
    destruct H as [H _]; reflexivity.
Defined.

(** ** Order of the children *)

Lemma StronglySorted_sublist {A} (R : relation A) (l k : list A) :
  l `sublist_of` k → StronglySorted R k → StronglySorted R l.
Proof.
  induction 1 as [|x l k Hsub IH|x l k Hsub IH]; intros Hk.
  - constructor.
  - apply StronglySorted_inv in Hk as [Hk Hx].
    constructor; [by apply IH|].
    rewrite Forall_forall in *. intros y Hy. apply Hx.
    by eapply elem_of_sublist.
  - apply StronglySorted_inv in Hk as [Hk _]. by apply IH.
Qed.





(** ** The sticky error *)

(** C9: whenever a handler is let through by its local checks and every
    request it sends is answered without error, the sticky error of the next
    state is [null], whatever it was before: for [fetchGroups], the three
    creations and the three deletions. *)
Theorem success_clears_error st checkConnection :
  (∀ groupsR subgroupsR filesR,
     isConnected st = true →
     error_of groupsR = None → error_of subgroupsR = None →
     error_of filesR = None →
     error (state_after
              (fetchGroups groupsR subgroupsR filesR checkConnection) st)
     = None)
  ∧ (∀ data,
       createGroup_ready st = true →
       error (state_after (handleCreateGroup (Success data) checkConnection)
                st)
       = None)
  ∧ (∀ groupId data,
       createSubgroup_ready st = true →
       error (state_after
                (handleCreateSubgroup groupId (Success data) checkConnection)
                st)
       = None)
  ∧ (∀ data,
       addFile_ready st = true →
       error (state_after (handleAddFile (Success data) checkConnection) st)
       = None)
  ∧ (∀ groupId,
       isConnected st = true →
       error (state_after (handleDeleteGroup groupId None checkConnection) st)
       = None)
  ∧ (∀ subgroupId,
       isConnected st = true →
       error (state_after
                (handleDeleteSubgroup subgroupId None checkConnection) st)
       = None)
  ∧ (∀ fileId,
       isConnected st = true →
       error (state_after (handleDeleteFile fileId None checkConnection) st)
       = None).
Proof.
  unfold state_after. repeat split.
  - intros gR sR fR Hc Hg Hs Hf. by rewrite fetchGroups_ok.
  - intros data Hr. by rewrite handleCreateGroup_eq, Hr.
  - intros gid data Hr. by rewrite handleCreateSubgroup_eq, Hr.
  - intros data Hr. by rewrite handleAddFile_eq, Hr.
  - intros gid Hc. by rewrite handleDeleteGroup_eq, Hc.
  - intros sid Hc. by rewrite handleDeleteSubgroup_eq, Hc.
  - intros fid Hc. by rewrite handleDeleteFile_eq, Hc.
Qed.

Lemma success_clears_error_witness :
  error (Sample.withError Sample.groupNameTyped)
  = Some (js "Erro ao criar grupo")
  ∧ error (state_after
             (fetchGroups Sample.groupsR Sample.subgroupsR Sample.filesR true)
             (Sample.withError Sample.groupNameTyped))
    = None
  ∧ error (state_after (handleCreateGroup (Success Sample.docs) true)
             (Sample.withError Sample.groupNameTyped))
    = None
  ∧ error (state_after
             (handleCreateSubgroup (js "g1") (Success Sample.y2024) true)
             (Sample.withError Sample.subgroupFormFilled))
    = None
  ∧ error (state_after (handleAddFile (Success Sample.report) true)
             (Sample.withError Sample.fileFormFilled))
    = None
  ∧ error (state_after (handleDeleteGroup (js "g1") None true)
             (Sample.withError Sample.fileAdded))
    = None
  ∧ error (state_after (handleDeleteSubgroup (js "s1") None true)
             (Sample.withError Sample.fileAdded))
    = None
  ∧ error (state_after (handleDeleteFile (js "f1") None true)
             (Sample.withError Sample.fileAdded))
    = None.
Proof.
  split; [reflexivity|].
  split; [apply (success_clears_error
                   (Sample.withError Sample.groupNameTyped) true);
          reflexivity|].
  split; [apply (success_clears_error
                   (Sample.withError Sample.groupNameTyped) true);
          reflexivity|].
  split; [apply (success_clears_error
                   (Sample.withError Sample.subgroupFormFilled) true);
          reflexivity|].
  split; [apply (success_clears_error
                   (Sample.withError Sample.fileFormFilled) true);
          reflexivity|].
  split; [apply (success_clears_error
                   (Sample.withError Sample.fileAdded) true);
          reflexivity|].
  split; apply (success_clears_error
                  (Sample.withError Sample.fileAdded) true);
    reflexivity.
Defined.

(** ** Failed mutations *)

Lemma only_error_and_connectivity_refl st :
  only_error_and_connectivity st st.
Proof. unfold only_error_and_connectivity. by destruct st. Qed.

Lemma failure_outcome_rejected msg checkConnection st :
  failure_outcome msg checkConnection false st st.
Proof.
  split; [reflexivity|].
  split; [apply only_error_and_connectivity_refl|discriminate].
Qed.

Lemma failure_outcome_caught msg checkConnection requested st :
  failure_outcome msg checkConnection requested st
    (with_IsConnected checkConnection (with_Error (Some (js msg)) st)).
Proof. repeat split. Qed.

(** C4: when the remote refuses an insert or a delete, the handler leaves
    the tree as it was and replaces nothing of the state but the sticky
    error and the connectivity flag; if the request was sent, the error is
    the handler's message and the flag is the answer of the connectivity
    probe. This holds for the three creations and the three deletions. *)
Theorem failed_mutation_leaves_tree st refused checkConnection
    groupId subgroupId fileId :
  failure_outcome "Erro ao criar grupo" checkConnection
    (createGroup_ready st) st
    (state_after (handleCreateGroup (Failure refused) checkConnection) st)
  ∧ failure_outcome "Erro ao criar subgrupo" checkConnection
      (createSubgroup_ready st) st
      (state_after
         (handleCreateSubgroup groupId (Failure refused) checkConnection) st)
  ∧ failure_outcome "Erro ao adicionar arquivo" checkConnection
      (addFile_ready st) st
      (state_after (handleAddFile (Failure refused) checkConnection) st)
  ∧ failure_outcome "Erro ao deletar grupo" checkConnection
      (isConnected st) st
      (state_after
         (handleDeleteGroup groupId (Some refused) checkConnection) st)
  ∧ failure_outcome "Erro ao deletar subgrupo" checkConnection
      (isConnected st) st
      (state_after
         (handleDeleteSubgroup subgroupId (Some refused) checkConnection) st)
  ∧ failure_outcome "Erro ao deletar arquivo" checkConnection
      (isConnected st) st
      (state_after
         (handleDeleteFile fileId (Some refused) checkConnection) st).
Proof.
  unfold state_after.
  rewrite handleCreateGroup_eq, handleCreateSubgroup_eq, handleAddFile_eq,
    handleDeleteGroup_eq, handleDeleteSubgroup_eq, handleDeleteFile_eq.
  destruct (createGroup_ready st), (createSubgroup_ready st),
    (addFile_ready st), (isConnected st); cbn [fst snd];
    (split; [|split; [|split; [|split; [|split]]]]);
    first [apply failure_outcome_caught | apply failure_outcome_rejected].
Qed.

Lemma failed_mutation_leaves_tree_witness :
  let st := Sample.fileAdded in
  let st' := state_after (handleDeleteGroup (js "g1") (Some Sample.denied)
                            false) st in
  groups st' = groups st
  ∧ only_error_and_connectivity st st'
  ∧ error st' = Some (js "Erro ao deletar grupo")
  ∧ isConnected st' = false.
Proof.
  cbv zeta.
  destruct (failed_mutation_leaves_tree Sample.fileAdded Sample.denied false
              (js "g1") (js "s1") (js "f1"))
    as (_ & _ & _ & (Hgroups & Hframe & Hset) & _).
  split; [exact Hgroups|]. split; [exact Hframe|].
  apply Hset. reflexivity.
Defined.

(** ** Scenarios *)

(** Create group "Docs", subgroup "2024" under it, file "report.pdf" under
    that: the requests sent, in order. *)
Example scenario_requests :
  sent (handleCreateGroup (Success Sample.docs) true) Sample.groupNameTyped
  ++ sent (handleCreateSubgroup (js "g1") (Success Sample.y2024) true)
       Sample.subgroupFormFilled
  ++ sent (handleAddFile (Success Sample.report) true) Sample.fileFormFilled
  = [ InsertGroup (js "Docs") (Some (js "u1"));
      InsertSubgroup (js "2024") (js "g1") (Some (js "u1"));
      InsertFile (js "report.pdf") (js "https://x/y") (Some (js "s1"))
                 (Some (js "u1")) ].
Proof. reflexivity. Qed.

(** Then delete subgroup "2024": "Docs" stays, with no subgroup, and the
    file is nowhere in the tree; the selected subgroup, which was "2024", is
    cleared. *)
Example scenario_delete_subgroup :
  let st := state_after (handleDeleteSubgroup (js "s1") None true)
              Sample.fileAdded in
  groups st = [newGroupNode Sample.docs] ∧ selectedSubgroup st = None.
Proof. split; reflexivity. Qed.

(** A refused load keeps the tree that was there. *)
Example scenario_refused_load :
  let st := state_after
              (fetchGroups (mkResponse None (Some Sample.denied))
                 Sample.subgroupsR Sample.filesR true)
              Sample.fileAdded in
  groups st = groups Sample.fileAdded
  ∧ error st = Some (js "Erro ao carregar os dados").
Proof. split; reflexivity. Qed.

(** * The handlers together *)

(** ** Without connectivity *)

Lemma run_offline c checkConnection st :
  isConnected st = false → run c checkConnection st = (tt, st, []).
Proof.
  intros Hc. destruct c; cbn [run].
  - by apply fetchGroups_offline.
  - rewrite handleCreateGroup_eq. unfold createGroup_ready.
    by rewrite Hc, andb_false_r.
  - rewrite handleCreateSubgroup_eq. unfold createSubgroup_ready.
    by rewrite Hc, andb_false_r.
  - rewrite handleAddFile_eq. unfold addFile_ready.
    by rewrite Hc, andb_false_r.
  - by rewrite handleDeleteGroup_eq, Hc.
  - by rewrite handleDeleteSubgroup_eq, Hc.
  - by rewrite handleDeleteFile_eq, Hc.
Qed.

Lemma runAll_cons c checkConnection rest st :
  runAll ((c, checkConnection) :: rest) st
  = (tt, state_after (runAll rest) (state_after (run c checkConnection) st),
     sent (run c checkConnection) st
     ++ sent (runAll rest) (state_after (run c checkConnection) st)).
Proof.
  cbn [runAll]. unfold state_after, sent. cbv [mbind Handler_bind].
  destruct (run c checkConnection st) as [[[] st1] sent1]. cbn.
  destruct (runAll rest st1) as [[[] st2] sent2]. reflexivity.
Qed.

Lemma runAll_offline calls st :
  isConnected st = false → runAll calls st = (tt, st, []).
Proof.
  intros Hc. induction calls as [|[c cc] rest IH]; [reflexivity|].
  rewrite runAll_cons. unfold state_after, sent.
  rewrite (run_offline c cc st Hc). cbn. by rewrite IH.
Qed.

(** While the connectivity flag is false, no handler that talks to the
    remote service does anything: whatever handlers are invoked, in whatever
    order and with whatever answers, nothing is sent and the state stays as
    it is. None of them can set the flag again. *)
Theorem offline_nothing_happens calls st :
  isConnected st = false →
  sent (runAll calls) st = [] ∧ state_after (runAll calls) st = st.
Proof.
  intros Hc. unfold sent, state_after. by rewrite runAll_offline.
Qed.

Lemma offline_nothing_happens_witness :
  isConnected Walk.offline = false
  ∧ sent (runAll Walk.attempts) Walk.offline = []
  ∧ state_after (runAll Walk.attempts) Walk.offline = Walk.offline.
Proof.
  split; [reflexivity|].
  apply (offline_nothing_happens Walk.attempts Walk.offline). reflexivity.
Defined.

Ltac no_probe H :=
  repeat (apply elem_of_cons in H as [H|H]; [discriminate H|]);
  by apply elem_of_nil in H.

Ltac probe_cases :=
  split;
  [ first [done | let H := fresh in intros H; no_probe H]
  | first [done | let H := fresh in intros H; exfalso; apply H; set_solver] ].

Lemma fetchGroups_probe groupsR subgroupsR filesR checkConnection st :
  let h := fetchGroups groupsR subgroupsR filesR checkConnection in
  (CheckConnection ∈ sent h st →
   isConnected (state_after h st) = checkConnection)
  ∧ (CheckConnection ∉ sent h st →
     isConnected (state_after h st) = isConnected st).
Proof.
  cbv zeta. unfold sent, state_after, fetchGroups. unfold_monad.
  destruct (isConnected st) eqn:Hc; cbn; [|probe_cases].
  destruct (error_of groupsR), (error_of subgroupsR), (error_of filesR);
    cbn; rewrite ?Hc; probe_cases.
Qed.

Lemma probe_sets_flag c checkConnection st :
  (CheckConnection ∈ sent (run c checkConnection) st →
   isConnected (state_after (run c checkConnection) st) = checkConnection)
  ∧ (CheckConnection ∉ sent (run c checkConnection) st →
     isConnected (state_after (run c checkConnection) st) = isConnected st).
Proof.
  destruct c; cbn [run]; [apply fetchGroups_probe|..];
    unfold sent, state_after.
  - rewrite handleCreateGroup_eq.
    destruct (createGroup_ready st), response; cbn; probe_cases.
  - rewrite handleCreateSubgroup_eq.
    destruct (createSubgroup_ready st), response; cbn; probe_cases.
  - rewrite handleAddFile_eq.
    destruct (addFile_ready st), response; cbn; probe_cases.
  - rewrite handleDeleteGroup_eq.
    destruct (isConnected st) eqn:Hc, response; cbn;
      try destruct (bool_decide _); cbn; rewrite ?Hc; probe_cases.
  - rewrite handleDeleteSubgroup_eq.
    destruct (isConnected st) eqn:Hc, response; cbn;
      try destruct (bool_decide _); cbn; rewrite ?Hc; probe_cases.
  - rewrite handleDeleteFile_eq.
    destruct (isConnected st) eqn:Hc, response; cbn; rewrite ?Hc;
      probe_cases.
Qed.

(** The connectivity flag moves only with the probe: a handler that asks
    the probe leaves the flag at the probe's answer, a handler that does not
    ask it leaves the flag as it was. So once a probe has answered [false],
    the handlers invoked afterwards send nothing and change nothing. *)
Theorem flag_follows_probe c checkConnection st calls :
  let st' := state_after (run c checkConnection) st in
  (CheckConnection ∈ sent (run c checkConnection) st →
   isConnected st' = checkConnection
   ∧ (checkConnection = false →
      sent (runAll calls) st' = [] ∧ state_after (runAll calls) st' = st'))
  ∧ (CheckConnection ∉ sent (run c checkConnection) st →
     isConnected st' = isConnected st).
Proof.
  cbv zeta. destruct (probe_sets_flag c checkConnection st) as [Hin Hnot].
  split; [|exact Hnot]. intros H. split; [by apply Hin|].
  intros ->. unfold sent, state_after. rewrite runAll_offline; [done|].
  by apply Hin.
Qed.

Lemma flag_follows_probe_witness :
  let c := CallDeleteGroup (js "g1") (Some Sample.denied) in
  let st' := state_after (run c false) Sample.fileAdded in
  isConnected st' = false
  ∧ sent (runAll Walk.attempts) st' = []
  ∧ state_after (runAll Walk.attempts) st' = st'
  ∧ isConnected
      (state_after (run (CallDeleteGroup (js "g1") None) false)
         Sample.fileAdded)
    = true.
Proof.
  cbv zeta.
  destruct (flag_follows_probe (CallDeleteGroup (js "g1") (Some Sample.denied))
              false Sample.fileAdded Walk.attempts) as [Hin _].
  destruct (flag_follows_probe (CallDeleteGroup (js "g1") None)
              false Sample.fileAdded []) as [_ Hnot].
  destruct Hin as [Hflag Hstuck].
  - vm_compute. set_solver.
  - split; [exact Hflag|]. split; [by apply Hstuck|].
    split; [by apply Hstuck|]. apply Hnot. vm_compute.
    intros H. apply list_elem_of_singleton in H. discriminate H.
Defined.

(** ** What the handlers leave alone *)

(** No handler that talks to the remote service changes the signed-in user
    or the copied-link mark, and a load or a creation never changes the
    selected group or the selected subgroup, whatever the remote answers. *)
Theorem creations_and_loads_keep_selection c checkConnection st :
  let st' := state_after (run c checkConnection) st in
  userId st' = userId st
  ∧ copiedLink st' = copiedLink st
  ∧ (creates_or_loads c = true →
     selectedGroup st' = selectedGroup st
     ∧ selectedSubgroup st' = selectedSubgroup st).
Proof.
  cbv zeta. destruct c; cbn [run creates_or_loads]; unfold state_after.
  - destruct (isConnected st) eqn:Hc;
      [|by rewrite fetchGroups_offline].
    destruct (decide (error_of groupsR = None ∧ error_of subgroupsR = None
                      ∧ error_of filesR = None)) as [(Hg & Hs & Hf)|Hfail].
    + by rewrite fetchGroups_ok.
    + pose proof (fetchGroups_failed groupsR subgroupsR filesR
                    checkConnection st Hc Hfail) as E.
      unfold state_after in E. by rewrite E.
  - rewrite handleCreateGroup_eq.
    by destruct (createGroup_ready st), response.
  - rewrite handleCreateSubgroup_eq.
    by destruct (createSubgroup_ready st), response.
  - rewrite handleAddFile_eq. by destruct (addFile_ready st), response.
  - rewrite handleDeleteGroup_eq.
    destruct (isConnected st), response; cbn; try done.
    by destruct (bool_decide _).
  - rewrite handleDeleteSubgroup_eq.
    destruct (isConnected st), response; cbn; try done.
    by destruct (bool_decide _).
  - rewrite handleDeleteFile_eq. by destruct (isConnected st), response.
Qed.

Lemma creations_and_loads_keep_selection_witness :
  let st' :=
    state_after
      (run (CallFetchGroups (mkResponse (Some []) None)
              (mkResponse (Some []) None) (mkResponse (Some []) None)) true)
      Walk.crossSelected in
  groups st' = []
  ∧ selectedGroup st' = Some (js "g2")
  ∧ selectedSubgroup st' = Some (js "s1").
Proof.
  cbv zeta. split; [reflexivity|].
  apply (creations_and_loads_keep_selection
           (CallFetchGroups (mkResponse (Some []) None)
              (mkResponse (Some []) None) (mkResponse (Some []) None))
           true Walk.crossSelected).
  reflexivity.
Defined.

(** ** Toggling twice *)

Lemma flipGroup_involutive groupId tree :
  flipGroup groupId (flipGroup groupId tree) = tree.
Proof.
  unfold flipGroup. induction tree as [|g tree IH]; [reflexivity|].
  cbn [fmap list_fmap]. f_equal; [|exact IH].
  destruct (decide (GroupWithDetails.id g = groupId)) as [Hid|Hid].
  - rewrite (bool_decide_eq_true_2 _ Hid).
    rewrite bool_decide_eq_true_2 by exact Hid.
    destruct g. cbn. by rewrite negb_involutive.
  - by rewrite !(bool_decide_eq_false_2 _ Hid).
Qed.

Lemma flip_subgroups_involutive subgroupId
    (subs : list SubgroupWithDetails.t) :
  let flip := λ subgroup,
    if bool_decide (SubgroupWithDetails.id subgroup = subgroupId) then
      {| SubgroupWithDetails.row := SubgroupWithDetails.row subgroup;
         SubgroupWithDetails.files := SubgroupWithDetails.files subgroup;
         SubgroupWithDetails.isExpanded :=
           negb (SubgroupWithDetails.isExpanded subgroup) |}
    else subgroup in
  flip <$> (flip <$> subs) = subs.
Proof.
  cbv zeta. induction subs as [|s subs IHs]; [reflexivity|].
  cbn [fmap list_fmap]. f_equal; [|exact IHs].
  destruct (decide (SubgroupWithDetails.id s = subgroupId)) as [Hsid|Hsid].
  - rewrite (bool_decide_eq_true_2 _ Hsid).
    rewrite bool_decide_eq_true_2 by exact Hsid.
    destruct s. cbn. by rewrite negb_involutive.
  - by rewrite !(bool_decide_eq_false_2 _ Hsid).
Qed.

Lemma flipSubgroup_involutive groupId subgroupId tree :
  flipSubgroup groupId subgroupId (flipSubgroup groupId subgroupId tree)
  = tree.
Proof.
  unfold flipSubgroup. induction tree as [|g tree IH]; [reflexivity|].
  cbn [fmap list_fmap]. f_equal; [|exact IH].
  destruct (decide (GroupWithDetails.id g = groupId)) as [Hid|Hid].
  - rewrite (bool_decide_eq_true_2 _ Hid).
    rewrite bool_decide_eq_true_2 by exact Hid.
    destruct g as [row subs ex]. cbn. f_equal.
    apply flip_subgroups_involutive.
  - by rewrite !(bool_decide_eq_false_2 _ Hid).
Qed.

(** Toggling the same group twice, or the same subgroup twice, gives back
    the state before the first toggle, whatever the tree holds (the target
    absent, or several nodes with the target's id). *)
Theorem toggle_twice_restores groupId subgroupId st :
  state_after (toggleGroup groupId) (state_after (toggleGroup groupId) st)
  = st
  ∧ state_after (toggleSubgroup groupId subgroupId)
      (state_after (toggleSubgroup groupId subgroupId) st)
    = st.
Proof.
  split; unfold state_after, toggleGroup, toggleSubgroup; unfold_monad;
    cbn -[flipGroup flipSubgroup].
  - rewrite flipGroup_involutive. by destruct st.
  - rewrite flipSubgroup_involutive. by destruct st.
Qed.

(** * Deleting *)

Lemma filter_all {A} (P : A → Prop) `{∀ x, Decision (P x)} (l : list A) :
  Forall P l → filter P l = l.
Proof.
  induction 1 as [|x l Hx _ IH]; [reflexivity|].
  rewrite filter_cons_True by exact Hx. by rewrite IH.
Qed.

Lemma filter_none_left {A} (P : A → Prop) `{∀ x, Decision (P x)}
    (l : list A) :
  Forall P (filter P l).
Proof.
  apply Forall_forall. intros x Hx.
  by apply list_elem_of_filter in Hx as [Hx _].
Qed.

(** ** The patches of the deleting handlers *)

Lemma removeSubgroup_spec subgroupId tree :
  subgroup_id_absent subgroupId (removeSubgroup subgroupId tree)
  ∧ Forall2 (λ g g',
      GroupWithDetails.row g' = GroupWithDetails.row g
      ∧ GroupWithDetails.isExpanded g' = GroupWithDetails.isExpanded g
      ∧ GroupWithDetails.subgroups g'
          `sublist_of` GroupWithDetails.subgroups g
      ∧ ∀ s, s ∈ GroupWithDetails.subgroups g' ↔
             s ∈ GroupWithDetails.subgroups g
             ∧ SubgroupWithDetails.id s ≠ subgroupId)
      tree (removeSubgroup subgroupId tree).
Proof.
  unfold subgroup_id_absent, removeSubgroup. split.
  - apply Forall_fmap, Forall_forall. intros g _. cbn.
    apply filter_none_left.
  - induction tree as [|g tree IH]; constructor; [|exact IH]. cbn.
    split; [done|]. split; [done|]. split; [apply sublist_filter|].
    intros s. rewrite list_elem_of_filter. tauto.
Qed.

Lemma removeFile_spec fileId tree :
  file_id_absent fileId (removeFile fileId tree)
  ∧ Forall2 (λ g g',
      GroupWithDetails.row g' = GroupWithDetails.row g
      ∧ GroupWithDetails.isExpanded g' = GroupWithDetails.isExpanded g
      ∧ Forall2 (λ s s',
          SubgroupWithDetails.row s' = SubgroupWithDetails.row s
          ∧ SubgroupWithDetails.isExpanded s'
            = SubgroupWithDetails.isExpanded s
          ∧ SubgroupWithDetails.files s'
              `sublist_of` SubgroupWithDetails.files s
          ∧ ∀ f, f ∈ SubgroupWithDetails.files s' ↔
                 f ∈ SubgroupWithDetails.files s ∧ File.id f ≠ fileId)
          (GroupWithDetails.subgroups g) (GroupWithDetails.subgroups g'))
      tree (removeFile fileId tree).
Proof.
  unfold file_id_absent, removeFile. split.
  - apply Forall_fmap, Forall_forall. intros g _. cbn.
    apply Forall_fmap, Forall_forall. intros s _. cbn.
    apply filter_none_left.
  - induction tree as [|g tree IH]; constructor; [|exact IH]. cbn.
    split; [done|]. split; [done|].
    induction (GroupWithDetails.subgroups g) as [|s subs IHs];
      constructor; [|exact IHs]. cbn.
    split; [done|]. split; [done|]. split; [apply sublist_filter|].
    intros f. rewrite list_elem_of_filter. tauto.
Qed.

Lemma removeGroup_absent groupId tree :
  group_id_absent groupId tree → removeGroup groupId tree = tree.
Proof. apply filter_all. Qed.

Lemma removeSubgroup_absent subgroupId tree :
  subgroup_id_absent subgroupId tree → removeSubgroup subgroupId tree = tree.
Proof.
  unfold removeSubgroup. induction 1 as [|g tree Hg _ IH]; [reflexivity|].
  cbn [fmap list_fmap]. rewrite IH. f_equal.
  rewrite filter_all by exact Hg. by destruct g.
Qed.

Lemma removeFile_absent fileId tree :
  file_id_absent fileId tree → removeFile fileId tree = tree.
Proof.
  unfold removeFile. induction 1 as [|g tree Hg _ IH]; [reflexivity|].
  cbn [fmap list_fmap]. rewrite IH. f_equal.
  destruct g as [row subs ex]. cbn in *. f_equal.
  induction Hg as [|s subs Hs _ IHs]; [reflexivity|].
  cbn [fmap list_fmap]. rewrite IHs. f_equal.
  rewrite filter_all by exact Hs. by destruct s.
Qed.

(** ** [handleDeleteGroup] *)

(** A group delete that the remote accepts sends that one request; leaves
    in the tree exactly the groups with another id, as they were and in
    their order; and clears both selections if the deleted id was the
    selected group, whether or not the selected subgroup belonged to it,
    and otherwise leaves both selections as they were. *)
Theorem deleteGroup_outcome groupId checkConnection st :
  isConnected st = true →
  let h := handleDeleteGroup groupId None checkConnection in
  let st' := state_after h st in
  sent h st = [Delete groups_table groupId]
  ∧ group_id_absent groupId (groups st')
  ∧ groups st' `sublist_of` groups st
  ∧ (∀ g, g ∈ groups st' ↔ g ∈ groups st ∧ GroupWithDetails.id g ≠ groupId)
  ∧ (selectedGroup st = Some groupId →
     selectedGroup st' = None ∧ selectedSubgroup st' = None)
  ∧ (selectedGroup st ≠ Some groupId →
     selectedGroup st' = selectedGroup st
     ∧ selectedSubgroup st' = selectedSubgroup st).
Proof.
  intros Hc h st'. subst h st'. unfold sent, state_after.
  rewrite handleDeleteGroup_eq, Hc. cbn -[removeGroup].
  split; [reflexivity|].
  assert (groups
            (if bool_decide (selectedGroup st = Some groupId)
             then with_SelectedSubgroup None
                    (with_SelectedGroup None
                       (with_Groups (removeGroup groupId (groups st)) st))
             else with_Groups (removeGroup groupId (groups st)) st)
          = removeGroup groupId (groups st)) as ->
    by (by destruct (bool_decide _)).
  split; [apply filter_none_left|]. split; [apply sublist_filter|].
  split; [intros g; unfold removeGroup; rewrite list_elem_of_filter; tauto|].
  split; intros Hsel.
  - by rewrite bool_decide_eq_true_2.
  - by rewrite bool_decide_eq_false_2.
Qed.

Lemma deleteGroup_outcome_witness :
  let st' := state_after (handleDeleteGroup (js "g2") None true)
               Walk.crossSelected in
  selectedSubgroup Walk.crossSelected = Some (js "s1")
  ∧ subgroup_in_tree Sample.y2024 (groups st')
  ∧ group_id_absent (js "g2") (groups st')
  ∧ selectedGroup st' = None
  ∧ selectedSubgroup st' = None.
Proof.
  cbv zeta. split; [reflexivity|]. split.
  { eexists _, _. vm_compute. split; [left|]. split; [left|]. reflexivity. }
  destruct (deleteGroup_outcome (js "g2") true Walk.crossSelected)
    as (_ & Habsent & _ & _ & Hsel & _); [reflexivity|].
  split; [exact Habsent|]. apply Hsel. reflexivity.
Defined.

(** ** [handleDeleteSubgroup] and [handleDeleteFile] *)

(** A subgroup delete that the remote accepts sends that one request; no
    subgroup with the id is left in any group; every group stays, with its
    row and expand flag, and keeps its other subgroups as they were and in
    their order; the selected group stays, and the selected subgroup is
    cleared exactly when it was the deleted id. *)
Theorem deleteSubgroup_outcome subgroupId checkConnection st :
  isConnected st = true →
  let h := handleDeleteSubgroup subgroupId None checkConnection in
  let st' := state_after h st in
  sent h st = [Delete subgroups_table subgroupId]
  ∧ subgroup_id_absent subgroupId (groups st')
  ∧ Forall2 (λ g g',
      GroupWithDetails.row g' = GroupWithDetails.row g
      ∧ GroupWithDetails.isExpanded g' = GroupWithDetails.isExpanded g
      ∧ GroupWithDetails.subgroups g'
          `sublist_of` GroupWithDetails.subgroups g
      ∧ ∀ s, s ∈ GroupWithDetails.subgroups g' ↔
             s ∈ GroupWithDetails.subgroups g
             ∧ SubgroupWithDetails.id s ≠ subgroupId)
      (groups st) (groups st')
  ∧ selectedGroup st' = selectedGroup st
  ∧ selectedSubgroup st'
    = if bool_decide (selectedSubgroup st = Some subgroupId)
      then None else selectedSubgroup st.
Proof.
  intros Hc h st'. subst h st'. unfold sent, state_after.
  rewrite handleDeleteSubgroup_eq, Hc. cbn -[removeSubgroup].
  split; [reflexivity|].
  destruct (removeSubgroup_spec subgroupId (groups st)) as [Habs Hrest].
  destruct (bool_decide _); cbn -[removeSubgroup]; done.
Qed.

Lemma deleteSubgroup_outcome_witness :
  let st' := state_after (handleDeleteSubgroup (js "s2") None true)
               Walk.crossSelected in
  subgroup_id_absent (js "s2") (groups st')
  ∧ subgroup_in_tree Sample.y2024 (groups st')
  ∧ selectedGroup st' = Some (js "g2")
  ∧ selectedSubgroup st' = Some (js "s1").
Proof.
  cbv zeta.
  destruct (deleteSubgroup_outcome (js "s2") true Walk.crossSelected)
    as (_ & Habsent & _ & Hgroup & Hsub); [reflexivity|].
  split; [exact Habsent|]. split.
  { eexists _, _. vm_compute. split; [left|]. split; [left|]. reflexivity. }
  split; [exact Hgroup|exact Hsub].
Defined.

(** A file delete that the remote accepts sends that one request; no file
    with the id is left in any subgroup; every group and subgroup stays,
    with its row and expand flag, and keeps its other files as they were and
    in their order; both selections stay. *)
Theorem deleteFile_outcome fileId checkConnection st :
  isConnected st = true →
  let h := handleDeleteFile fileId None checkConnection in
  let st' := state_after h st in
  sent h st = [Delete files_table fileId]
  ∧ file_id_absent fileId (groups st')
  ∧ Forall2 (λ g g',
      GroupWithDetails.row g' = GroupWithDetails.row g
      ∧ GroupWithDetails.isExpanded g' = GroupWithDetails.isExpanded g
      ∧ Forall2 (λ s s',
          SubgroupWithDetails.row s' = SubgroupWithDetails.row s
          ∧ SubgroupWithDetails.isExpanded s'
            = SubgroupWithDetails.isExpanded s
          ∧ SubgroupWithDetails.files s'
              `sublist_of` SubgroupWithDetails.files s
          ∧ ∀ f, f ∈ SubgroupWithDetails.files s' ↔
                 f ∈ SubgroupWithDetails.files s ∧ File.id f ≠ fileId)
          (GroupWithDetails.subgroups g) (GroupWithDetails.subgroups g'))
      (groups st) (groups st')
  ∧ selectedGroup st' = selectedGroup st
  ∧ selectedSubgroup st' = selectedSubgroup st.
Proof.
  intros Hc h st'. subst h st'. unfold sent, state_after.
  rewrite handleDeleteFile_eq, Hc. cbn -[removeFile].
  split; [reflexivity|].
  destruct (removeFile_spec fileId (groups st)) as [Habs Hrest]. done.
Qed.

Lemma deleteFile_outcome_witness :
  let st' := state_after (handleDeleteFile (js "f1") None true)
               Walk.crossSelected in
  file_id_absent (js "f1") (groups st')
  ∧ ¬ file_in_tree Sample.report (groups st')
  ∧ selectedSubgroup st' = Some (js "s1").
Proof.
  cbv zeta.
  destruct (deleteFile_outcome (js "f1") true Walk.crossSelected)
    as (_ & Habsent & _ & _ & Hsub); [reflexivity|].
  split; [exact Habsent|]. split; [|exact Hsub].
  intros (g & sd & Hg & Hsd & Hf).
  unfold file_id_absent in Habsent. rewrite !Forall_forall in Habsent.
  specialize (Habsent g Hg). rewrite Forall_forall in Habsent.
  specialize (Habsent sd Hsd). rewrite Forall_forall in Habsent.
  by apply (Habsent _ Hf).
Defined.

(** ** Deleting what is not there *)

(** A delete for an id that no node of the tree has is still sent to the
    remote; when the remote accepts it the tree is the one before. This
    holds for groups, subgroups and files. *)
Theorem delete_unknown_id_keeps_tree checkConnection st :
  isConnected st = true →
  (∀ groupId,
     group_id_absent groupId (groups st) →
     let h := handleDeleteGroup groupId None checkConnection in
     sent h st = [Delete groups_table groupId]
     ∧ groups (state_after h st) = groups st)
  ∧ (∀ subgroupId,
       subgroup_id_absent subgroupId (groups st) →
       let h := handleDeleteSubgroup subgroupId None checkConnection in
       sent h st = [Delete subgroups_table subgroupId]
       ∧ groups (state_after h st) = groups st)
  ∧ (∀ fileId,
       file_id_absent fileId (groups st) →
       let h := handleDeleteFile fileId None checkConnection in
       sent h st = [Delete files_table fileId]
       ∧ groups (state_after h st) = groups st).
Proof.
  intros Hc. unfold sent, state_after. split; [|split].
  - intros gid Habs. cbv zeta. rewrite handleDeleteGroup_eq, Hc.
    cbn -[removeGroup]. split; [reflexivity|].
    destruct (bool_decide _); cbn -[removeGroup];
      by apply removeGroup_absent.
  - intros sid Habs. cbv zeta. rewrite handleDeleteSubgroup_eq, Hc.
    cbn -[removeSubgroup]. split; [reflexivity|].
    destruct (bool_decide _); cbn -[removeSubgroup];
      by apply removeSubgroup_absent.
  - intros fid Habs. cbv zeta. rewrite handleDeleteFile_eq, Hc.
    cbn -[removeFile]. split; [reflexivity|]. by apply removeFile_absent.
Qed.

Lemma delete_unknown_id_keeps_tree_witness :
  let st := Sample.fileAdded in
  (sent (handleDeleteGroup (js "g9") None true) st
   = [Delete groups_table (js "g9")]
   ∧ groups (state_after (handleDeleteGroup (js "g9") None true) st)
     = groups st)
  ∧ groups (state_after (handleDeleteSubgroup (js "s9") None true) st)
    = groups st
  ∧ groups (state_after (handleDeleteFile (js "f9") None true) st)
    = groups st.
Proof.
  cbv zeta.
  destruct (delete_unknown_id_keeps_tree true Sample.fileAdded)
    as (Hg & Hs & Hf); [reflexivity|].
  split; [|split].
  - apply Hg. vm_compute. repeat constructor; discriminate.
  - apply Hs. vm_compute. repeat constructor; discriminate.
  - apply Hf. vm_compute. repeat constructor; discriminate.
Defined.

(** * Creating, then deleting *)

Lemma removeGroup_appendGroup data tree :
  group_id_absent (Group.id data) tree →
  removeGroup (Group.id data) (appendGroup data tree) = tree.
Proof.
  intros Habs. unfold removeGroup, appendGroup. rewrite filter_app.
  rewrite filter_all by exact Habs.
  rewrite filter_cons_False by (intros Hne; by apply Hne).
  by rewrite filter_nil, app_nil_r.
Qed.

Lemma removeSubgroup_appendSubgroup groupId data tree :
  subgroup_id_absent (Subgroup.id data) tree →
  removeSubgroup (Subgroup.id data) (appendSubgroup groupId data tree) = tree.
Proof.
  unfold removeSubgroup, appendSubgroup.
  induction 1 as [|g tree Hg _ IH]; [reflexivity|].
  cbn [fmap list_fmap]. rewrite IH. f_equal.
  destruct g as [row subs ex]. case_bool_decide; cbn in *; f_equal.
  - rewrite filter_app, filter_all by exact Hg.
    rewrite filter_cons_False by (intros Hne; by apply Hne).
    by rewrite filter_nil, app_nil_r.
  - by apply filter_all.
Qed.

Lemma removeFile_appendFile selected data tree :
  file_id_absent (File.id data) tree →
  removeFile (File.id data) (appendFile selected data tree) = tree.
Proof.
  unfold removeFile, appendFile.
  induction 1 as [|g tree Hg _ IH]; [reflexivity|].
  cbn [fmap list_fmap]. rewrite IH. f_equal.
  destruct g as [row subs ex]. cbn in *. f_equal.
  induction Hg as [|s subs Hs _ IHs]; [reflexivity|].
  cbn [fmap list_fmap]. rewrite IHs. f_equal.
  destruct s as [srow fs sex]. case_bool_decide; cbn in *; f_equal.
  - rewrite filter_app, filter_all by exact Hs.
    rewrite filter_cons_False by (intros Hne; by apply Hne).
    by rewrite filter_nil, app_nil_r.
  - by apply filter_all.
Qed.

(** Creating a node whose id is new to the tree and then deleting that id
    gives back the tree there was before the creation: for a group, for a
    subgroup under any group id, and for a file under the selected subgroup.
    [st1] is any state with the tree the creation produced, the state the
    delete is invoked in. *)
Theorem create_then_delete_restores st0 st1 c0 c1 :
  isConnected st1 = true →
  (∀ data,
     group_id_absent (Group.id data) (groups st0) →
     createGroup_ready st0 = true →
     groups st1
     = groups (state_after (handleCreateGroup (Success data) c0) st0) →
     groups (state_after (handleDeleteGroup (Group.id data) None c1) st1)
     = groups st0)
  ∧ (∀ groupId data,
       subgroup_id_absent (Subgroup.id data) (groups st0) →
       createSubgroup_ready st0 = true →
       groups st1
       = groups (state_after
                   (handleCreateSubgroup groupId (Success data) c0) st0) →
       groups (state_after
                 (handleDeleteSubgroup (Subgroup.id data) None c1) st1)
       = groups st0)
  ∧ (∀ data,
       file_id_absent (File.id data) (groups st0) →
       addFile_ready st0 = true →
       groups st1
       = groups (state_after (handleAddFile (Success data) c0) st0) →
       groups (state_after (handleDeleteFile (File.id data) None c1) st1)
       = groups st0).
Proof.
  intros Hc. unfold state_after. split; [|split].
  - intros data Habs Hr H1.
    rewrite handleCreateGroup_eq, Hr in H1. cbn -[appendGroup] in H1.
    rewrite handleDeleteGroup_eq, Hc. cbn -[removeGroup].
    destruct (bool_decide _); cbn -[removeGroup]; rewrite H1;
      by apply removeGroup_appendGroup.
  - intros gid data Habs Hr H1.
    rewrite handleCreateSubgroup_eq, Hr in H1. cbn -[appendSubgroup] in H1.
    rewrite handleDeleteSubgroup_eq, Hc. cbn -[removeSubgroup].
    destruct (bool_decide _); cbn -[removeSubgroup]; rewrite H1;
      by apply removeSubgroup_appendSubgroup.
  - intros data Habs Hr H1.
    rewrite handleAddFile_eq, Hr in H1. cbn -[appendFile] in H1.
    rewrite handleDeleteFile_eq, Hc. cbn -[removeFile]. rewrite H1.
    by apply removeFile_appendFile.
Qed.

Lemma create_then_delete_restores_witness :
  groups (state_after (handleDeleteGroup (js "g1") None true)
            Sample.groupCreated)
  = groups Sample.groupNameTyped
  ∧ groups (state_after (handleDeleteSubgroup (js "s1") None true)
              Sample.subgroupCreated)
    = groups Sample.subgroupFormFilled
  ∧ groups (state_after (handleDeleteFile (js "f1") None true)
              Sample.fileAdded)
    = groups Sample.fileFormFilled.
Proof.
  split; [|split].
  - destruct (create_then_delete_restores Sample.groupNameTyped
                Sample.groupCreated true true) as (Hg & _ & _);
      [reflexivity|].
    apply (Hg Sample.docs); try reflexivity. constructor.
  - destruct (create_then_delete_restores Sample.subgroupFormFilled
                Sample.subgroupCreated true true) as (_ & Hs & _);
      [reflexivity|].
    apply (Hs (js "g1") Sample.y2024); try reflexivity.
    vm_compute. repeat constructor.
  - destruct (create_then_delete_restores Sample.fileFormFilled
                Sample.fileAdded true true) as (_ & _ & Hf);
      [reflexivity|].
    apply (Hf Sample.report); try reflexivity.
    vm_compute. repeat constructor.
Defined.

(** * The file pane *)

Lemma appendFile_subgroups selected data tree :
  appendFile selected data tree ≫= GroupWithDetails.subgroups
  = (λ subgroup,
       if bool_decide (Some (SubgroupWithDetails.id subgroup) = selected)
       then
         {| SubgroupWithDetails.row := SubgroupWithDetails.row subgroup;
            SubgroupWithDetails.isExpanded :=
              SubgroupWithDetails.isExpanded subgroup;
            SubgroupWithDetails.files :=
              SubgroupWithDetails.files subgroup ++ [data] |}
       else subgroup)
    <$> (tree ≫= GroupWithDetails.subgroups).
Proof.
  unfold appendFile. induction tree as [|g tree IH]; [reflexivity|].
  cbn [fmap list_fmap]. rewrite !bind_cons, fmap_app, IH. reflexivity.
Qed.


(** The files of the first subgroup with the selected id, after every
    subgroup was passed through [patch], a function that keeps ids. *)
Lemma find_selected_fmap (selected : option jsstring)
    (patch : SubgroupWithDetails.t → SubgroupWithDetails.t)
    (subs : list SubgroupWithDetails.t) :
  (∀ s, SubgroupWithDetails.id (patch s) = SubgroupWithDetails.id s) →
  (λ found : nat * SubgroupWithDetails.t, SubgroupWithDetails.files found.2)
  <$> list_find (λ s, Some (SubgroupWithDetails.id s) = selected)
                (patch <$> subs)
  = (λ found : nat * SubgroupWithDetails.t,
       SubgroupWithDetails.files (patch found.2))
    <$> list_find (λ s, Some (SubgroupWithDetails.id s) = selected) subs.
Proof.
  intros Hid. rewrite list_find_fmap.
  rewrite (list_find_ext _ (λ s, Some (SubgroupWithDetails.id s) = selected))
    by (intros s; unfold compose; by rewrite Hid).
  by destruct (list_find _ subs) as [[i s]|].
Qed.

(** After a file creation that the remote accepts, the file list of the
    pane is the list shown before with the new file at its end; if no list
    was shown (no subgroup of the tree has the selected id), none is shown
    after. *)
Theorem file_pane_after_add data checkConnection st :
  addFile_ready st = true →
  selectedFiles (state_after (handleAddFile (Success data) checkConnection) st)
  = (λ files, files ++ [data]) <$> selectedFiles st.
Proof.
  intros Hr. unfold state_after. rewrite handleAddFile_eq, Hr.
  unfold selectedFiles. cbn -[appendFile].
  rewrite appendFile_subgroups, find_selected_fmap
    by (intros s; by case_bool_decide).
  destruct (list_find _ _) as [[i s]|] eqn:Hfind; [|reflexivity].
  apply list_find_Some in Hfind as (_ & Hs & _). cbn.
  by rewrite bool_decide_eq_true_2.
Qed.

Lemma file_pane_after_add_witness :
  selectedFiles Walk.fileTyped = Some [Sample.report]
  ∧ selectedFiles
      (state_after (handleAddFile (Success Walk.notes) true) Walk.fileTyped)
    = Some [Sample.report; Walk.notes].
Proof.
  split; [reflexivity|].
  apply (file_pane_after_add Walk.notes true Walk.fileTyped). reflexivity.
Defined.




Lemma toggleGroup_eq groupId st :
  toggleGroup groupId st
  = (tt, with_Groups (flipGroup groupId (groups st)) st, []).
Proof. reflexivity. Qed.

Lemma toggleSubgroup_eq groupId subgroupId st :
  toggleSubgroup groupId subgroupId st
  = (tt, with_Groups (flipSubgroup groupId subgroupId (groups st)) st, []).
Proof. reflexivity. Qed.



(** * A selected subgroup that is not in the tree *)

Lemma subgroup_id_absent_not_selected subgroupId tree :
  subgroup_id_absent subgroupId tree →
  Forall (λ g,
    Forall (λ s, Some (SubgroupWithDetails.id s) ≠ Some subgroupId)
           (GroupWithDetails.subgroups g))
    tree.
Proof.
  intros H. eapply Forall_impl; [exact H|]. intros g Hg.
  eapply Forall_impl; [exact Hg|]. intros s Hs. congruence.
Qed.

Lemma selectedFiles_absent subgroupId st :
  selectedSubgroup st = Some subgroupId →
  subgroup_id_absent subgroupId (groups st) →
  selectedFiles st = None.
Proof.
  intros Hsel Habs. unfold selectedFiles. rewrite Hsel.
  assert (list_find
            (λ s, Some (SubgroupWithDetails.id s) = Some subgroupId)
            (groups st ≫= GroupWithDetails.subgroups) = None) as ->;
    [|reflexivity].
  apply list_find_None.
  induction Habs as [|g tree Hg _ IH]; [constructor|].
  rewrite bind_cons. apply Forall_app. split; [|exact IH].
  eapply Forall_impl; [exact Hg|]. intros s Hs. congruence.
Qed.

(** When the selected subgroup is the id of no subgroup of the tree and the
    file form passes its local checks, [handleAddFile] still sends the insert
    with that id as parent; when the remote accepts it the tree is the one
    before, and the pane shows no file list before or after. *)
Theorem addFile_unknown_subgroup subgroupId data checkConnection st :
  selectedSubgroup st = Some subgroupId →
  subgroup_id_absent subgroupId (groups st) →
  addFile_ready st = true →
  let h := handleAddFile (Success data) checkConnection in
  sent h st
  = [InsertFile (newFileName st) (newFileLink st) (Some subgroupId)
                (userId st)]
  ∧ groups (state_after h st) = groups st
  ∧ selectedFiles st = None
  ∧ selectedFiles (state_after h st) = None.
Proof.
  intros Hsel Habs Hr h. subst h.
  pose proof (selectedFiles_absent subgroupId st Hsel Habs) as Hnone.
  assert (appendFile (selectedSubgroup st) data (groups st) = groups st)
    as Hsame.
  { rewrite Hsel.
    by apply appendFile_absent, subgroup_id_absent_not_selected. }
  unfold sent, state_after. rewrite handleAddFile_eq, Hr.
  cbn -[appendFile]. rewrite Hsame.
  split; [by rewrite Hsel|]. split; [reflexivity|]. split; [exact Hnone|].
  apply (selectedFiles_absent subgroupId); [exact Hsel|exact Habs].
Qed.

Lemma addFile_unknown_subgroup_witness :
  let st :=
    state_after
      (fetchGroups (mkResponse (Some []) None) (mkResponse (Some []) None)
                   (mkResponse (Some []) None) true)
      Walk.fileTyped in
  let h := handleAddFile (Success Walk.notes) true in
  sent h st
  = [InsertFile (js "notes.txt") (js "https://x/n") (Some (js "s1"))
                (Some (js "u1"))]
  ∧ groups (state_after h st) = []
  ∧ selectedFiles (state_after h st) = None.
Proof.
  cbv zeta.
  destruct (addFile_unknown_subgroup (js "s1") Walk.notes true
              (state_after
                 (fetchGroups (mkResponse (Some []) None)
                    (mkResponse (Some []) None) (mkResponse (Some []) None)
                    true)
                 Walk.fileTyped))
    as (Hsent & Hgroups & _ & Hpane);
    [reflexivity | constructor | reflexivity |].
  split; [exact Hsent|]. split; [exact Hgroups|exact Hpane].
Defined.

(** Deleting a group that is not the selected group, while the selected
    subgroup is one that only groups of the deleted id hold: after the
    delete the selected subgroup is still that id, no subgroup of the tree
    has it, the pane shows no file list, and a filled file form still sends
    an insert with the removed subgroup as parent. *)
Theorem deleted_subgroup_still_targeted groupId subgroupId c0 response c1 st :
  isConnected st = true →
  selectedGroup st ≠ Some groupId →
  selectedSubgroup st = Some subgroupId →
  Forall (λ g,
    GroupWithDetails.id g ≠ groupId →
    Forall (λ s, SubgroupWithDetails.id s ≠ subgroupId)
           (GroupWithDetails.subgroups g))
    (groups st) →
  addFile_ready st = true →
  let st' := state_after (handleDeleteGroup groupId None c0) st in
  selectedSubgroup st' = Some subgroupId
  ∧ subgroup_id_absent subgroupId (groups st')
  ∧ selectedFiles st' = None
  ∧ head (sent (handleAddFile response c1) st')
    = Some (InsertFile (newFileName st) (newFileLink st) (Some subgroupId)
                       (userId st)).
Proof.
  intros Hc Hgroup Hsel Honly Hr st'.
  assert (st' = with_Error None
                  (with_Groups (removeGroup groupId (groups st)) st)) as ->.
  { subst st'. unfold state_after. rewrite handleDeleteGroup_eq, Hc.
    cbn -[removeGroup]. by rewrite bool_decide_eq_false_2. }
  assert (subgroup_id_absent subgroupId (removeGroup groupId (groups st)))
    as Habs.
  { unfold subgroup_id_absent, removeGroup. apply Forall_forall.
    intros g Hg. apply list_elem_of_filter in Hg as [Hid Hg].
    rewrite Forall_forall in Honly. by apply Honly. }
  split; [exact Hsel|]. split; [exact Habs|].
  split; [by apply (selectedFiles_absent subgroupId)|].
  unfold sent. rewrite handleAddFile_eq.
  assert (addFile_ready
            (with_Error None
               (with_Groups (removeGroup groupId (groups st)) st))
          = true) as -> by exact Hr.
  cbn -[removeGroup]. rewrite Hsel. by destruct response.
Qed.

Lemma deleted_subgroup_still_targeted_witness :
  let st' := state_after (handleDeleteGroup (js "g1") None true)
               Walk.fileTyped in
  subgroup_in_tree Sample.y2024 (groups Walk.fileTyped)
  ∧ selectedSubgroup st' = Some (js "s1")
  ∧ subgroup_id_absent (js "s1") (groups st')
  ∧ head (sent (handleAddFile (Failure Sample.denied) true) st')
    = Some (InsertFile (js "notes.txt") (js "https://x/n") (Some (js "s1"))
                       (Some (js "u1"))).
Proof.
  cbv zeta. split.
  { eexists _, _. vm_compute. split; [left|]. split; [left|]. reflexivity. }
  destruct (deleted_subgroup_still_targeted (js "g1") (js "s1") true
              (Failure Sample.denied) true Walk.fileTyped)
    as (Hsel & Habs & _ & Hsent); try reflexivity.
  - discriminate.
  - vm_compute. repeat constructor. intros Hne. by destruct Hne.
  - split; [exact Hsel|]. split; [exact Habs|exact Hsent].
Defined.

(** * Order and expand flags across the handlers *)

Lemma ascending_sublist {A} earlier (created_at : A → jsstring)
    (l k : list A) :
  l `sublist_of` k →
  ascending earlier created_at k → ascending earlier created_at l.
Proof. apply StronglySorted_sublist. Qed.

Lemma ascending_snoc {A} earlier (created_at : A → jsstring)
    (l : list A) (x : A) :
  ascending earlier created_at (l ++ [x]) ↔
  ascending earlier created_at l
  ∧ Forall (λ y, earlier (created_at y) (created_at x)) l.
Proof.
  unfold ascending. rewrite StronglySorted_app, Forall_forall. split.
  - intros (Hall & Hl & _). split; [exact Hl|].
    intros y Hy. apply Hall; [exact Hy|]. apply list_elem_of_singleton.
    reflexivity.
  - intros (Hl & Hall). split; [|split; [exact Hl|]].
    + intros y z Hy Hz. apply list_elem_of_singleton in Hz as ->. auto.
    + repeat constructor.
Qed.

Lemma tree_ascending_removeGroup earlier groupId tree :
  tree_ascending earlier tree →
  tree_ascending earlier (removeGroup groupId tree).
Proof.
  unfold tree_ascending, removeGroup. intros [Hrows Hall]. split.
  - eapply ascending_sublist; [|exact Hrows].
    apply fmap_sublist, sublist_filter.
  - by apply Forall_filter_keep.
Qed.

Lemma tree_ascending_removeSubgroup earlier subgroupId tree :
  tree_ascending earlier tree →
  tree_ascending earlier (removeSubgroup subgroupId tree).
Proof.
  unfold tree_ascending, removeSubgroup. intros [Hrows Hall]. split.
  - rewrite <- list_fmap_compose. exact Hrows.
  - apply Forall_fmap. eapply Forall_impl; [exact Hall|].
    intros g [Hs Hfs]. cbn. split.
    + eapply ascending_sublist; [|exact Hs].
      apply fmap_sublist, sublist_filter.
    + by apply Forall_filter_keep.
Qed.

Lemma tree_ascending_removeFile earlier fileId tree :
  tree_ascending earlier tree →
  tree_ascending earlier (removeFile fileId tree).
Proof.
  unfold tree_ascending, removeFile. intros [Hrows Hall]. split.
  - rewrite <- list_fmap_compose. exact Hrows.
  - apply Forall_fmap. eapply Forall_impl; [exact Hall|].
    intros g [Hs Hfs]. cbn. split.
    + rewrite <- list_fmap_compose. exact Hs.
    + apply Forall_fmap. eapply Forall_impl; [exact Hfs|].
      intros s Hf. cbn. eapply ascending_sublist; [|exact Hf].
      apply sublist_filter.
Qed.

Lemma flipGroup_rows groupId tree :
  GroupWithDetails.row <$> flipGroup groupId tree
  = GroupWithDetails.row <$> tree.
Proof.
  unfold flipGroup. induction tree as [|g tree IH]; [reflexivity|].
  cbn [fmap list_fmap]. rewrite IH. f_equal. by case_bool_decide.
Qed.

Lemma flipSubgroup_rows groupId subgroupId tree :
  GroupWithDetails.row <$> flipSubgroup groupId subgroupId tree
  = GroupWithDetails.row <$> tree.
Proof.
  unfold flipSubgroup. induction tree as [|g tree IH]; [reflexivity|].
  cbn [fmap list_fmap]. rewrite IH. f_equal. by case_bool_decide.
Qed.

Lemma tree_ascending_flipGroup earlier groupId tree :
  tree_ascending earlier tree →
  tree_ascending earlier (flipGroup groupId tree).
Proof.
  unfold tree_ascending. intros [Hrows Hall]. split.
  - by rewrite flipGroup_rows.
  - unfold flipGroup. apply Forall_fmap. eapply Forall_impl; [exact Hall|].
    intros g Hg. cbn. by case_bool_decide.
Qed.

Lemma flip_subgroups_rows subgroupId (subs : list SubgroupWithDetails.t) :
  SubgroupWithDetails.row
  <$> ((λ subgroup,
          if bool_decide (SubgroupWithDetails.id subgroup = subgroupId) then
            {| SubgroupWithDetails.row := SubgroupWithDetails.row subgroup;
               SubgroupWithDetails.files := SubgroupWithDetails.files subgroup;
               SubgroupWithDetails.isExpanded :=
                 negb (SubgroupWithDetails.isExpanded subgroup) |}
          else subgroup) <$> subs)
  = SubgroupWithDetails.row <$> subs.
Proof.
  induction subs as [|s l IH]; [reflexivity|].
  cbn [fmap list_fmap]. rewrite IH. f_equal. by case_bool_decide.
Qed.

Lemma tree_ascending_flipSubgroup earlier groupId subgroupId tree :
  tree_ascending earlier tree →
  tree_ascending earlier (flipSubgroup groupId subgroupId tree).
Proof.
  unfold tree_ascending. intros [Hrows Hall]. split.
  - by rewrite flipSubgroup_rows.
  - unfold flipSubgroup. apply Forall_fmap.
    eapply Forall_impl; [exact Hall|].
    intros g [Hs Hfs]. cbn. case_bool_decide; [|by split]. cbn. split.
    + by rewrite flip_subgroups_rows.
    + apply Forall_fmap. eapply Forall_impl; [exact Hfs|].
      intros s Hf. cbn. by case_bool_decide.
Qed.

(** No delete and no toggle reorders anything: if every sequence of the
    tree is in ascending creation time, it still is after any of the three
    deletes, whatever the remote answers, and after expanding or collapsing
    a group or a subgroup. *)
Theorem deletes_and_toggles_keep_order earlier c checkConnection
    groupId subgroupId st :
  tree_ascending earlier (groups st) →
  (creates_or_loads c = false →
   tree_ascending earlier (groups (state_after (run c checkConnection) st)))
  ∧ tree_ascending earlier (groups (state_after (toggleGroup groupId) st))
  ∧ tree_ascending earlier
      (groups (state_after (toggleSubgroup groupId subgroupId) st)).
Proof.
  intros Hasc. split; [|split].
  - destruct c; cbn [run creates_or_loads]; try discriminate;
      intros _; unfold state_after.
    + rewrite handleDeleteGroup_eq.
      destruct (isConnected st), response; cbn -[removeGroup]; try done.
      destruct (bool_decide _); cbn -[removeGroup];
        by apply tree_ascending_removeGroup.
    + rewrite handleDeleteSubgroup_eq.
      destruct (isConnected st), response; cbn -[removeSubgroup]; try done.
      destruct (bool_decide _); cbn -[removeSubgroup];
        by apply tree_ascending_removeSubgroup.
    + rewrite handleDeleteFile_eq.
      destruct (isConnected st), response; cbn -[removeFile]; try done.
      by apply tree_ascending_removeFile.
  - unfold state_after. rewrite toggleGroup_eq.
    by apply tree_ascending_flipGroup.
  - unfold state_after. rewrite toggleSubgroup_eq.
    by apply tree_ascending_flipSubgroup.
Qed.

Lemma deletes_and_toggles_keep_order_witness :
  tree_ascending Sample.earlier
    (groups (state_after (handleDeleteSubgroup (js "s2") None true)
               Walk.twoGroups)).
Proof.
  destruct (deletes_and_toggles_keep_order Sample.earlier
              (CallDeleteSubgroup (js "s2") None) true (js "g1") (js "s1")
              Walk.twoGroups) as [Hdel _].
  - vm_compute. split; repeat constructor.
  - by apply Hdel.
Defined.

(** A created group keeps the groups in ascending creation time exactly
    when every group already there is created no later than the new one:
    the new node goes last and nothing is sorted. *)
Theorem createGroup_order earlier data checkConnection st :
  createGroup_ready st = true →
  tree_ascending earlier
    (groups (state_after (handleCreateGroup (Success data) checkConnection)
               st))
  ↔ tree_ascending earlier (groups st)
    ∧ Forall (λ g,
        earlier (Group.created_at (GroupWithDetails.row g))
                (Group.created_at data))
        (groups st).
Proof.
  intros Hr. unfold state_after. rewrite handleCreateGroup_eq, Hr.
  cbn -[appendGroup]. unfold tree_ascending, appendGroup.
  rewrite fmap_app, Forall_app, Forall_singleton. cbn [fmap list_fmap].
  rewrite ascending_snoc, Forall_fmap. cbn.
  split.
  - intros ((Hrows & Hlater) & Hall & _). done.
  - intros ((Hrows & Hall) & Hlater). repeat split; try done;
      unfold ascending; constructor.
Qed.

Lemma createGroup_order_witness :
  let late : Group.t :=
    {| Group.id := js "g3"; Group.name := js "Old";
       Group.user_id := js "u1";
       Group.created_at := js "2023-12-31T00:00:00Z" |} in
  let st := with_NewGroupName (js "Old") Walk.twoGroups in
  tree_ascending Sample.earlier (groups st)
  ∧ ¬ tree_ascending Sample.earlier
        (groups (state_after (handleCreateGroup (Success late) true) st)).
Proof.
  cbv zeta. split.
  - vm_compute. split; repeat constructor.
  - intros H.
    apply (createGroup_order Sample.earlier _ true
             (with_NewGroupName (js "Old") Walk.twoGroups)) in H;
      [|reflexivity].
    destruct H as [_ H]. apply Forall_inv in H. discriminate H.
Defined.

(** ** Expand flags *)

Lemma all_expanded_run c checkConnection st :
  all_expanded (groups st) →
  all_expanded (groups (state_after (run c checkConnection) st)).
Proof.
  intros Hall. destruct c; cbn [run]; unfold state_after.
  - destruct (isConnected st) eqn:Hc;
      [|by rewrite fetchGroups_offline].
    destruct (decide (error_of groupsR = None ∧ error_of subgroupsR = None
                      ∧ error_of filesR = None)) as [(Hg & Hs & Hf)|Hfail].
    + rewrite fetchGroups_ok by done. apply all_expanded_groupsWithDetails.
    + pose proof (fetchGroups_failed groupsR subgroupsR filesR
                    checkConnection st Hc Hfail) as E.
      unfold state_after in E. by rewrite E.
  - rewrite handleCreateGroup_eq.
    destruct (createGroup_ready st), response; cbn; try done.
    unfold all_expanded, appendGroup in *. apply Forall_app.
    split; [exact Hall|]. by repeat constructor.
  - rewrite handleCreateSubgroup_eq.
    destruct (createSubgroup_ready st), response; cbn; try done.
    unfold all_expanded, appendSubgroup in *. apply Forall_fmap.
    eapply Forall_impl; [exact Hall|]. intros g [Hg Hs]. cbn.
    case_bool_decide; [|done]. cbn. split; [done|].
    apply Forall_app. split; [exact Hs|]. by repeat constructor.
  - rewrite handleAddFile_eq.
    destruct (addFile_ready st), response; cbn; try done.
    unfold all_expanded, appendFile in *. apply Forall_fmap.
    eapply Forall_impl; [exact Hall|]. intros g [Hg Hs]. cbn.
    split; [done|]. apply Forall_fmap.
    eapply Forall_impl; [exact Hs|]. intros s Hex. cbn.
    by case_bool_decide.
  - rewrite handleDeleteGroup_eq.
    destruct (isConnected st), response; cbn -[removeGroup]; try done.
    destruct (bool_decide _); cbn -[removeGroup];
      by apply Forall_filter_keep.
  - rewrite handleDeleteSubgroup_eq.
    destruct (isConnected st), response; cbn -[removeSubgroup]; try done.
    assert (all_expanded (removeSubgroup subgroupId (groups st))).
    { unfold all_expanded, removeSubgroup in *. apply Forall_fmap.
      eapply Forall_impl; [exact Hall|]. intros g [Hg Hs]. cbn.
      split; [done|]. by apply Forall_filter_keep. }
    by destruct (bool_decide _).
  - rewrite handleDeleteFile_eq.
    destruct (isConnected st), response; cbn -[removeFile]; try done.
    unfold all_expanded, removeFile in *. apply Forall_fmap.
    eapply Forall_impl; [exact Hall|]. intros g [Hg Hs]. cbn.
    split; [done|]. apply Forall_fmap.
    eapply Forall_impl; [exact Hs|]. by intros s Hex.
Qed.

(** Only a toggle collapses a node: if every group and subgroup is
    expanded, every one still is after any run of loads, creations and
    deletes, whatever the remote answers. *)
Theorem only_toggles_collapse calls st :
  all_expanded (groups st) →
  all_expanded (groups (state_after (runAll calls) st)).
Proof.
  revert st. induction calls as [|[c cc] rest IH]; intros st Hall.
  - exact Hall.
  - unfold state_after. rewrite runAll_cons. cbn [fst snd].
    apply IH. by apply all_expanded_run.
Qed.

Lemma only_toggles_collapse_witness :
  all_expanded
    (groups (state_after
               (runAll [ (CallCreateGroup (Success Walk.music), true);
                         (CallDeleteFile (js "f1") None, true) ])
               (with_NewGroupName (js "Music") Sample.fileAdded))).
Proof.
  apply (only_toggles_collapse _ (with_NewGroupName (js "Music")
                                    Sample.fileAdded)).
  vm_compute. repeat constructor.
Defined.

(** * Start of the component *)

Lemma initializeApp_eq getSession checkConnection getUser st :
  initializeApp getSession checkConnection getUser st =
  match getSession with
  | Rejected =>
    (tt, with_Error (Some initialize_error) st, [Auth GetSession; OnLogout])
  | Resolved None => (tt, st, [Auth GetSession; OnLogout])
  | Resolved (Some _) =>
    if checkConnection then
      match getUser with
      | Rejected =>
        (tt,
         with_Error (Some initialize_error) (with_IsConnected true st),
         [Auth GetSession; Remote CheckConnection; Auth GetUser; OnLogout])
      | Resolved (Some user_id) =>
        (tt, with_UserId (Some user_id) (with_IsConnected true st),
         [Auth GetSession; Remote CheckConnection; Auth GetUser])
      | Resolved None =>
        (tt, with_IsConnected true st,
         [Auth GetSession; Remote CheckConnection; Auth GetUser; OnLogout])
      end
    else
      (tt, with_Error (Some connection_error) (with_IsConnected false st),
       [Auth GetSession; Remote CheckConnection])
  end.
Proof.
  by destruct getSession as [[[]|]|], checkConnection, getUser as [[uid|]|].
Qed.

(** [initializeApp] never touches the tree. It calls [onLogout] exactly when
    there is no session to work with (none, or [getSession] rejected) or,
    the service being reachable, no user (none, or [getUser] rejected): an
    unreachable service alone logs nobody out. It sets the signed-in user
    only when a session, a reachable service and a user all came back, and
    it asks the connectivity probe, and sets the flag to its answer, exactly
    when there is a session. *)
Theorem initializeApp_outcome getSession checkConnection getUser st :
  let init := initializeApp getSession checkConnection getUser in
  let st' := state_of init st in
  groups st' = groups st
  ∧ (OnLogout ∈ effects_of init st ↔
     getSession ≠ Resolved (Some ())
     ∨ (checkConnection = true ∧ ∀ user_id, getUser ≠ Resolved (Some user_id)))
  ∧ (∀ user_id,
       getSession = Resolved (Some ()) → checkConnection = true →
       getUser = Resolved (Some user_id) →
       userId st' = Some user_id)
  ∧ (getSession ≠ Resolved (Some ()) ∨ checkConnection = false
     ∨ (∀ user_id, getUser ≠ Resolved (Some user_id)) →
     userId st' = userId st)
  ∧ (Remote CheckConnection ∈ effects_of init st ↔
     getSession = Resolved (Some ()))
  ∧ (getSession = Resolved (Some ()) → isConnected st' = checkConnection)
  ∧ (getSession ≠ Resolved (Some ()) → isConnected st' = isConnected st).
Proof.
  cbv zeta. unfold state_of, effects_of. rewrite initializeApp_eq.
  destruct getSession as [[[]|]|], checkConnection, getUser as [[uid|]|];
    cbn; rewrite ?elem_of_cons, ?elem_of_nil;
    repeat split; intros;
    repeat match goal with
           | H : _ ∨ _ |- _ => destruct H as [?|?]
           | H : _ ∧ _ |- _ => destruct H as [? ?]
           | H : ∀ u, Resolved (Some ?uid) ≠ Resolved (Some u) |- _ =>
             exfalso; by apply (H uid)
           end;
    try done; try congruence;
    try (left; discriminate);
    try (right; split; [reflexivity|intros ?; discriminate]);
    try (right; right; reflexivity);
    try (right; left; reflexivity);
    try tauto.
Qed.

Lemma initializeApp_outcome_witness :
  let init := initializeApp (Resolved (Some ())) true (Resolved (Some (js "u1")))
  in
  userId (state_of init initial) = Some (js "u1")
  ∧ (OnLogout ∉ effects_of init initial)
  ∧ (OnLogout
     ∈ effects_of (initializeApp (Resolved (Some ())) true Rejected) initial)
  ∧ userId (state_of (initializeApp (Resolved (Some ())) false
                        (Resolved (Some (js "u1")))) initial)
    = None.
Proof.
  cbv zeta.
  destruct (initializeApp_outcome (Resolved (Some ())) true
              (Resolved (Some (js "u1"))) initial)
    as (_ & Hout & Huser & _).
  destruct (initializeApp_outcome (Resolved (Some ())) true Rejected initial)
    as (_ & Hout' & _).
  destruct (initializeApp_outcome (Resolved (Some ())) false
              (Resolved (Some (js "u1"))) initial)
    as (_ & _ & _ & Hkeep & _).
  split; [by apply Huser|]. split; [|split].
  - intros Hin. apply Hout in Hin as [Hno|[_ Hno]]; [done|].
    by apply (Hno (js "u1")).
  - apply Hout'. right. done.
  - apply Hkeep. right. left. reflexivity.
Defined.

(** The effect that loads the tree runs [fetchGroups] only with a signed-in
    user and the connectivity flag set, and otherwise does nothing. When it
    runs, the loading screen is gone afterwards whatever the remote answers:
    with the fetched tree and no error, or with the tree as it was and the
    load error as the sticky error. *)
Theorem fetchEffect_outcome groupsR subgroupsR filesR checkConnection st :
  let h := fetchEffect groupsR subgroupsR filesR checkConnection in
  (truthy_opt (userId st) = false ∨ isConnected st = false →
   sent h st = [] ∧ state_after h st = st)
  ∧ (truthy_opt (userId st) = true → isConnected st = true →
     screen (state_after h st) = MainScreen
     ∧ (error_of groupsR = None → error_of subgroupsR = None →
        error_of filesR = None →
        groups (state_after h st)
        = groupsWithDetails (data groupsR) (data subgroupsR) (data filesR)
        ∧ errorBanner (state_after h st) = None)
     ∧ (¬ (error_of groupsR = None ∧ error_of subgroupsR = None
           ∧ error_of filesR = None) →
        groups (state_after h st) = groups st
        ∧ errorBanner (state_after h st)
          = Some (js "Erro ao carregar os dados"))).
Proof.
  cbv zeta.
  assert (∀ st, fetchEffect groupsR subgroupsR filesR checkConnection st
                = if truthy_opt (userId st) && isConnected st
                  then fetchGroups groupsR subgroupsR filesR checkConnection st
                  else (tt, st, [])) as Heq.
  { intros st0. unfold fetchEffect. unfold_monad.
    destruct (truthy_opt (userId st0) && isConnected st0); [|reflexivity].
    by destruct (fetchGroups _ _ _ _ st0) as [[[] ?] ?]. }
  unfold sent, state_after. rewrite Heq. split.
  - intros [H|H]; rewrite H, ?andb_false_r; done.
  - intros Hu Hc. rewrite Hu, Hc. cbn [andb].
    destruct (decide (error_of groupsR = None ∧ error_of subgroupsR = None
                      ∧ error_of filesR = None)) as [(Hg & Hs & Hf)|Hfail].
    + rewrite fetchGroups_ok by done. cbn.
      split; [reflexivity|]. split; [by intros|].
      intros Hn. exfalso. by apply Hn.
    + pose proof (fetchGroups_failed groupsR subgroupsR filesR
                    checkConnection st Hc Hfail) as E.
      unfold state_after in E. rewrite E. cbn.
      split; [reflexivity|]. split; [|by intros].
      intros Hg Hs Hf. exfalso. by apply Hfail.
Qed.

Lemma fetchEffect_outcome_witness :
  let st := state_of (initializeApp (Resolved (Some ())) true
                        (Resolved (Some (js "u1")))) initial in
  let h := fetchEffect (mkResponse None (Some Sample.denied))
             Sample.subgroupsR Sample.filesR true in
  screen st = LoadingScreen
  ∧ screen (state_after h st) = MainScreen
  ∧ errorBanner (state_after h st) = Some (js "Erro ao carregar os dados").
Proof.
  cbv zeta. split; [reflexivity|].
  destruct (fetchEffect_outcome (mkResponse None (Some Sample.denied))
              Sample.subgroupsR Sample.filesR true
              (state_of (initializeApp (Resolved (Some ())) true
                           (Resolved (Some (js "u1")))) initial))
    as [_ Hrun].
  destruct Hrun as (Hscreen & _ & Hfail); [reflexivity|reflexivity|].
  split; [exact Hscreen|]. apply Hfail. intros [H _]. discriminate H.
Defined.

(** When the first connectivity probe of [initializeApp] answers [false],
    the component stays where it is: whatever [getUser] would have said, the
    effect that loads the tree sends nothing, no handler invoked afterwards
    sends or changes anything, nobody is logged out, and the screen is still
    the loading one, so the connection error that was set is not displayed. *)
Theorem unreachable_at_start_stays_loading getUser groupsR subgroupsR filesR
    checkConnection calls :
  let init := initializeApp (Resolved (Some ())) false getUser in
  let st1 := state_of init initial in
  let load := fetchEffect groupsR subgroupsR filesR checkConnection in
  let st2 := state_after (runAll calls) (state_after load st1) in
  (OnLogout ∉ effects_of init initial)
  ∧ sent load st1 = []
  ∧ sent (runAll calls) (state_after load st1) = []
  ∧ st2 = st1
  ∧ error st2 = Some connection_error
  ∧ screen st2 = LoadingScreen
  ∧ errorBanner st2 = None.
Proof.
  cbv zeta.
  assert (state_of (initializeApp (Resolved (Some ())) false getUser) initial
          = with_Error (Some connection_error)
              (with_IsConnected false initial)) as -> by reflexivity.
  assert (effects_of (initializeApp (Resolved (Some ())) false getUser)
            initial
          = [Auth GetSession; Remote CheckConnection]) as -> by reflexivity.
  split.
  { rewrite !elem_of_cons, elem_of_nil.
    intros [Hin|[Hin|Hin]]; [discriminate Hin..|exact Hin]. }
  split; [reflexivity|].
  assert (state_after
            (fetchEffect groupsR subgroupsR filesR checkConnection)
            (with_Error (Some connection_error)
               (with_IsConnected false initial))
          = with_Error (Some connection_error)
              (with_IsConnected false initial)) as -> by reflexivity.
  unfold sent, state_after. rewrite runAll_offline by reflexivity.
  done.
Qed.

(** * The application shell *)

(** The shell ends its loading view after [checkUser] whatever [getSession]
    does, a rejected [getSession] leaving the authentication flag as it was;
    an auth event decides the view alone, whatever was there before; and a
    logout whose [signOut] is rejected changes nothing, so the dashboard
    stays on screen. *)
Theorem shell_views getSession session st :
  App.render (App.checkUser getSession st) ≠ App.LoadingView
  ∧ (App.render (App.checkUser getSession st) = App.DashboardView ↔
     getSession = Resolved (Some ())
     ∨ (getSession = Rejected ∧ App.isAuthenticated st = true))
  ∧ App.render (App.authStateChanged session st)
    = match session with
      | Some _ => App.DashboardView
      | None => App.LoginView
      end
  ∧ App.handleLogout Rejected st = st
  ∧ App.render (App.handleLogout (Resolved ()) st) ≠ App.DashboardView.
Proof.
  destruct st as [auth loading].
  destruct getSession as [[[]|]|], session as [[]|], auth, loading; cbn;
    repeat split; try done; try (intuition (discriminate || congruence)).
Qed.

Lemma onEffects_rejected effects app :
  App.onEffects effects Rejected app = app.
Proof.
  induction effects as [|e rest IH]; [reflexivity|]. by destruct e.
Qed.

Lemma onEffects_isLoading effects signOut app :
  App.isLoading (App.onEffects effects signOut app) = App.isLoading app.
Proof.
  revert app. induction effects as [|e rest IH]; intros app; [reflexivity|].
  destruct e; cbn; rewrite IH; [reflexivity..|]. by destruct signOut.
Qed.

Lemma onEffects_stays_out effects app :
  App.isAuthenticated app = false →
  App.isAuthenticated (App.onEffects effects (Resolved ()) app) = false.
Proof.
  revert app. induction effects as [|e rest IH]; intros app Hout; [done|].
  destruct e; cbn; by apply IH.
Qed.

Lemma onEffects_logged_out effects app :
  OnLogout ∈ effects →
  App.isAuthenticated (App.onEffects effects (Resolved ()) app) = false.
Proof.
  revert app. induction effects as [|e rest IH]; intros app Hin.
  - by apply elem_of_nil in Hin.
  - apply elem_of_cons in Hin as [<-|Hin].
    + cbn. by apply onEffects_stays_out.
    + destruct e; cbn; by apply IH.
Qed.

(** Whenever [initializeApp] calls [onLogout], which is the shell's
    [handleLogout]: if the sign-out goes through, the shell, once past its
    own loading, shows the login view; if [signOut] is rejected, the shell
    is as before and keeps showing what it showed. *)
Theorem initialize_logout_reaches_login getSession checkConnection getUser
    st app :
  let done := effects_of (initializeApp getSession checkConnection getUser)
                st in
  OnLogout ∈ done →
  App.onEffects done Rejected app = app
  ∧ (App.isLoading app = false →
     App.render (App.onEffects done (Resolved ()) app) = App.LoginView).
Proof.
  cbv zeta. intros Hin. split; [apply onEffects_rejected|].
  intros Hload. unfold App.render.
  by rewrite onEffects_isLoading, Hload, onEffects_logged_out.
Qed.

Lemma initialize_logout_reaches_login_witness :
  let shown := {| App.isAuthenticated := true; App.isLoading := false |} in
  let done := effects_of (initializeApp (Resolved None) true Rejected)
                Sample.fileAdded in
  App.render shown = App.DashboardView
  ∧ App.onEffects done Rejected shown = shown
  ∧ App.render (App.onEffects done (Resolved ()) shown) = App.LoginView.
Proof.
  cbv zeta. split; [reflexivity|].
  destruct (initialize_logout_reaches_login (Resolved None) true Rejected
              Sample.fileAdded
              {| App.isAuthenticated := true; App.isLoading := false |})
    as [Hrej Hres].
  - vm_compute. set_solver.
  - split; [exact Hrej|]. by apply Hres.
Defined.

(** * Submitting a form again *)

(** A creation that the remote accepts empties the name it was made from,
    so the same handler invoked again in the next render is rejected by its
    local check: it sends nothing and changes nothing, whatever the remote
    would answer. This holds for the group form, the subgroup form and the
    file form. *)
Theorem accepted_creation_is_not_repeated st c0 c1 :
  (∀ data again,
     createGroup_ready st = true →
     let st' := state_after (handleCreateGroup (Success data) c0) st in
     sent (handleCreateGroup again c1) st' = []
     ∧ state_after (handleCreateGroup again c1) st' = st')
  ∧ (∀ groupId data again,
       createSubgroup_ready st = true →
       let st' := state_after
                    (handleCreateSubgroup groupId (Success data) c0) st in
       sent (handleCreateSubgroup groupId again c1) st' = []
       ∧ state_after (handleCreateSubgroup groupId again c1) st' = st')
  ∧ (∀ data again,
       addFile_ready st = true →
       let st' := state_after (handleAddFile (Success data) c0) st in
       sent (handleAddFile again c1) st' = []
       ∧ state_after (handleAddFile again c1) st' = st').
Proof.
  unfold sent, state_after. split; [|split].
  - intros data again Hr. cbv zeta.
    rewrite (handleCreateGroup_eq (Success data)), Hr.
    by rewrite handleCreateGroup_eq.
  - intros gid data again Hr. cbv zeta.
    rewrite (handleCreateSubgroup_eq gid (Success data)), Hr.
    by rewrite handleCreateSubgroup_eq.
  - intros data again Hr. cbv zeta.
    rewrite (handleAddFile_eq (Success data)), Hr.
    rewrite handleAddFile_eq. unfold addFile_ready. cbn.
    by rewrite andb_false_r.
Qed.

Lemma accepted_creation_is_not_repeated_witness :
  sent (handleCreateGroup (Success Sample.docs) true) Sample.groupCreated = []
  ∧ sent (handleCreateSubgroup (js "g1") (Success Sample.y2024) true)
      Sample.subgroupCreated
    = []
  ∧ sent (handleAddFile (Success Sample.report) true) Sample.fileAdded = [].
Proof.
  destruct (accepted_creation_is_not_repeated Sample.groupNameTyped true true)
    as (Hg & _ & _).
  destruct (accepted_creation_is_not_repeated Sample.subgroupFormFilled
              true true) as (_ & Hs & _).
  destruct (accepted_creation_is_not_repeated Sample.fileFormFilled true true)
    as (_ & _ & Hf).
  split; [|split].
  - by apply (Hg Sample.docs (Success Sample.docs)).
  - by apply (Hs (js "g1") Sample.y2024 (Success Sample.y2024)).
  - by apply (Hf Sample.report (Success Sample.report)).
Defined.

(** A creation that the remote refuses keeps what the user typed and
    selected: if the connectivity probe then answers [true], the same
    handler invoked again sends the same insert again, for each of the three
    forms. *)
Theorem refused_creation_can_be_retried st refused c1 :
  (∀ again,
     createGroup_ready st = true →
     let st' := state_after (handleCreateGroup (Failure refused) true) st in
     head (sent (handleCreateGroup again c1) st')
     = Some (InsertGroup (newGroupName st) (userId st)))
  ∧ (∀ groupId again,
       createSubgroup_ready st = true →
       let st' := state_after
                    (handleCreateSubgroup groupId (Failure refused) true) st
       in
       head (sent (handleCreateSubgroup groupId again c1) st')
       = Some (InsertSubgroup (newSubgroupName st) groupId (userId st)))
  ∧ (∀ again,
       addFile_ready st = true →
       let st' := state_after (handleAddFile (Failure refused) true) st in
       head (sent (handleAddFile again c1) st')
       = Some (InsertFile (newFileName st) (newFileLink st)
                          (selectedSubgroup st) (userId st))).
Proof.
  unfold sent, state_after. split; [|split].
  - intros again Hr. cbv zeta.
    rewrite (handleCreateGroup_eq (Failure refused)), Hr.
    rewrite handleCreateGroup_eq. cbn [fst snd].
    assert (createGroup_ready
              (with_IsConnected true
                 (with_Error (Some (js "Erro ao criar grupo")) st)) = true)
      as ->.
    { unfold createGroup_ready in *.
      cbn [with_IsConnected with_Error newGroupName userId isConnected].
      apply andb_true_iff in Hr as [-> _]. reflexivity. }
    by destruct again.
  - intros gid again Hr. cbv zeta.
    rewrite (handleCreateSubgroup_eq gid (Failure refused)), Hr.
    rewrite handleCreateSubgroup_eq. cbn [fst snd].
    assert (createSubgroup_ready
              (with_IsConnected true
                 (with_Error (Some (js "Erro ao criar subgrupo")) st)) = true)
      as ->.
    { unfold createSubgroup_ready in *.
      cbn [with_IsConnected with_Error newSubgroupName userId isConnected].
      apply andb_true_iff in Hr as [-> _]. reflexivity. }
    by destruct again.
  - intros again Hr. cbv zeta.
    rewrite (handleAddFile_eq (Failure refused)), Hr.
    rewrite handleAddFile_eq. cbn [fst snd].
    assert (addFile_ready
              (with_IsConnected true
                 (with_Error (Some (js "Erro ao adicionar arquivo")) st))
            = true) as ->.
    { unfold addFile_ready in *.
      cbn [with_IsConnected with_Error selectedSubgroup newFileName
           newFileLink userId isConnected].
      apply andb_true_iff in Hr as [-> _]. reflexivity. }
    by destruct again.
Qed.

Lemma refused_creation_can_be_retried_witness :
  head (sent (handleCreateGroup (Success Sample.docs) true)
          (state_after (handleCreateGroup (Failure Sample.denied) true)
             Sample.groupNameTyped))
  = Some (InsertGroup (js "Docs") (Some (js "u1"))).
Proof.
  destruct (refused_creation_can_be_retried Sample.groupNameTyped
              Sample.denied true) as (Hg & _ & _).
  by apply (Hg (Success Sample.docs)).
Defined.
